(** * CRSF serial receiver (src/main/rx/crsf.c): frame assembly, checksums,
      channel unpacking and link-rate fallback.

    The C code is embedded shallowly: fixed-width C integers are [Z] with the
    wrap-around written out, the static variables of crsf.c form the record
    [crsfState], [micros()] is an argument of the receive callback, and every
    call to a collaborator outside crsf.c is recorded as a [call] in program
    order.  The build modelled is the one with USE_CRSF_V3, USE_TELEMETRY_CRSF,
    USE_MSP_OVER_TELEMETRY, USE_CRSF_CMS_TELEMETRY, USE_CRSF_LINK_STATISTICS,
    USE_RX_RSSI_DBM and USE_RX_LINK_QUALITY_INFO defined. *)

From Stdlib Require Import ZArith Lia Bool.
From stdpp Require Import base list.

Local Open Scope Z_scope.

(** ** Fixed-width integers *)

Definition u8 (x : Z) : Z := x mod 256.
Definition u16 (x : Z) : Z := x mod 65536.
Definition u32 (x : Z) : Z := x mod 4294967296.

(** Conversion of a byte to [int8_t]. *)
Definition i8 (x : Z) : Z := if u8 x <? 128 then u8 x else u8 x - 256.

Definition isByte (x : Z) : Prop := 0 <= x < 256.

(** ** Constants

    rx/crsf.h and rx/crsf_protocol.h are not part of the sources at hand.  The
    sizes are fixed by the comments of crsf.c ("Max frame size is 64 bytes",
    the frame layout, "0x14 Link statistics", "(0x16)", "(0x17)"); the
    remaining frame types and the flight-controller address are the values of
    the CRSF protocol. *)

Definition CRSF_FRAME_SIZE_MAX : Z := 64.
Definition CRSF_PAYLOAD_SIZE_MAX : Z := 60.
Definition CRSF_MAX_CHANNEL : Z := 16.

Definition CRSF_FRAME_LENGTH_ADDRESS : Z := 1.
Definition CRSF_FRAME_LENGTH_FRAMELENGTH : Z := 1.
Definition CRSF_FRAME_LENGTH_TYPE_CRC : Z := 2.
Definition CRSF_FRAME_ORIGIN_DEST_SIZE : Z := 2.
Definition CRSF_FRAME_LINK_STATISTICS_PAYLOAD_SIZE : Z := 10.
Definition CRSF_FRAME_RX_MSP_FRAME_SIZE : Z := 8.

Definition CRSF_FRAMETYPE_LINK_STATISTICS : Z := 0x14.
Definition CRSF_FRAMETYPE_RC_CHANNELS_PACKED : Z := 0x16.
Definition CRSF_FRAMETYPE_SUBSET_RC_CHANNELS_PACKED : Z := 0x17.
Definition CRSF_FRAMETYPE_LINK_STATISTICS_RX : Z := 0x1C.
Definition CRSF_FRAMETYPE_LINK_STATISTICS_TX : Z := 0x1D.
Definition CRSF_FRAMETYPE_DEVICE_PING : Z := 0x28.
Definition CRSF_FRAMETYPE_COMMAND : Z := 0x32.
Definition CRSF_FRAMETYPE_MSP_REQ : Z := 0x7A.
Definition CRSF_FRAMETYPE_MSP_WRITE : Z := 0x7C.
Definition CRSF_FRAMETYPE_DISPLAYPORT_CMD : Z := 0x7D.

Definition CRSF_ADDRESS_FLIGHT_CONTROLLER : Z := 0xC8.

Definition CRSF_TIME_NEEDED_PER_FRAME_US : Z := 1100.
Definition CRSF_TIME_BETWEEN_FRAMES_US : Z := 6667.
Definition CRSF_DIGITAL_CHANNEL_MIN : Z := 172.
Definition CRSF_DIGITAL_CHANNEL_MAX : Z := 1811.
Definition CRSF_FRAME_ERROR_COUNT_THRESHOLD : Z := 100.

Definition CRSF_SUBSET_RC_CHANNELS_PACKED_RESOLUTION : Z := 11.
Definition CRSF_SUBSET_RC_CHANNELS_PACKED_MASK : Z := 0x07FF.
Definition CRSF_SUBSET_RC_CHANNELS_PACKED_STARTING_CHANNEL_RESOLUTION : Z := 5.
Definition CRSF_SUBSET_RC_CHANNELS_PACKED_STARTING_CHANNEL_MASK : Z := 0x1F.

(** ** Checksum engine *)

(** Modelled from the spec: common/crc.c (crc8_calc, crc8_dvb_s2,
    crc8_poly_0xba) is not under src/.  The spec asks for a byte-wise CRC-8
    with the DVB-S2 polynomial for frames and a second CRC-8 with a distinct
    polynomial for commands; this is the bit-serial, MSB-first CRC-8 with
    initial value taken from the caller, polynomial 0xD5 for DVB-S2 and, as the
    name of the callee says, 0xBA for the command checksum. *)
Fixpoint crc8_shift (poly : Z) (n : nat) (crc : Z) : Z :=
  match n with
  | O => crc
  | S n' =>
      crc8_shift poly n'
        (if Z.testbit crc 7
         then u8 (Z.lxor (Z.shiftl crc 1) poly)
         else u8 (Z.shiftl crc 1))
  end.

Definition crc8_calc (crc a poly : Z) : Z := crc8_shift poly 8 (Z.lxor crc a).
Definition crc8_dvb_s2 (crc a : Z) : Z := crc8_calc crc a 0xD5.
Definition crc8_poly_0xba (crc a : Z) : Z := crc8_calc crc a 0xBA.

(** ** Frame buffer

    [crsfFrame_t] is a union of [bytes[CRSF_FRAME_SIZE_MAX]] and the struct
    [deviceAddress; frameLength; type; payload[CRSF_PAYLOAD_SIZE_MAX + 1]]; it
    is modelled as the list of its 64 bytes.  A read outside the list yields
    0; stores are modelled where they happen.

    The code indexes the buffer with no comparison against its size.  An
    access behind the 64 bytes falls on whatever the linker placed there,
    which this model does not hold: it reports such a store and reads 0.  A
    run whose stores all stay inside the buffer reads nothing outside it
    either, and there the model is the code; the properties that speak of
    the buffer, the snapshot or the state after a run are stated for such
    runs ([storeInBuffer] below) or for frames that fit the buffer. *)

Definition byteAt (b : list Z) (i : Z) : Z :=
  if i <? 0 then 0 else default 0 (b !! Z.to_nat i).

Definition deviceAddress (f : list Z) : Z := byteAt f 0.
Definition frameLength (f : list Z) : Z := byteAt f 1.
Definition frameType (f : list Z) : Z := byteAt f 2.
Definition payload (f : list Z) (i : Z) : Z := byteAt f (3 + i).

(** The two [for (ii = 0; ii < bound; ++ii) crc = step(crc, payload[ii])]
    loops; [n] counts the iterations left. *)
Fixpoint crcLoop (step : Z -> Z -> Z) (f : list Z) (n : nat) (ii crc : Z) : Z :=
  match n with
  | O => crc
  | S n' => crcLoop step f n' (ii + 1) (step crc (payload f ii))
  end.

Definition crsfFrameCRC (f : list Z) : Z :=
  crcLoop crc8_dvb_s2 f
    (Z.to_nat (frameLength f - CRSF_FRAME_LENGTH_TYPE_CRC)) 0
    (crc8_dvb_s2 0 (frameType f)).

Definition crsfFrameCmdCRC (f : list Z) : Z :=
  crcLoop crc8_poly_0xba f
    (Z.to_nat (frameLength f - CRSF_FRAME_LENGTH_TYPE_CRC - 1)) 0
    (crc8_poly_0xba 0 (frameType f)).

(** ** Collaborators and state *)

(** Calls that leave crsf.c, with their arguments.  A pointer into the frame
    buffer is passed as the bytes from that offset to the end of the buffer. *)
Inductive call : Type :=
| bufferCrsfMspFrame (frameStart : list Z) (frameLen : Z)
| crsfScheduleMspResponse
| crsfScheduleDeviceInfoResponse
| crsfProcessDisplayPortCmd (frameStart : list Z)
| CRSFsetLQ (v : Z)
| CRSFsetRFMode (v : Z)
| CRSFsetSnR (v : Z)
| CRSFsetTXPower (v : Z)
| CRSFsetRSSI (v : Z)
| setRssi (v : Z)
| setRssiDbm (v : Z)
| setLinkQualityDirect (v : Z)
| crsfProcessCommand (cmd : list Z)
| setCrsfDefaultSpeed.

(** What crsf.c reads from the rest of the firmware: the configured RSSI and
    link-quality sources, [rxConfig()->crsf_use_rx_snr], and the answer of the
    MSP bridge to a buffered frame. *)
Record crsfEnv : Type := {
  rssiSourceIsCrsf : bool;
  linkQualitySourceIsCrsf : bool;
  crsf_use_rx_snr : bool;
  mspFrameBuffered : list Z -> bool
}.

(** The static variables of crsf.c. *)
Record crsfState : Type := {
  crsfFrameDone : bool;
  crsfFrame : list Z;
  crsfChannelDataFrame : list Z;
  crsfChannelData : list Z;
  crsfFrameStartAtUs : Z;
  lastLinkStatisticsFrameUs : Z;
  crsfFramePosition : Z;
  crsfFrameErrorCnt : Z
}.

Definition zeroFrame : list Z := replicate (Z.to_nat CRSF_FRAME_SIZE_MAX) 0.

(** State after [crsfRxInit]: statics are zero, every channel holds
    [(16 * midrc) / 10 - 1408]. *)
Definition crsfRxInit (midrc : Z) : crsfState := {|
  crsfFrameDone := false;
  crsfFrame := zeroFrame;
  crsfChannelDataFrame := zeroFrame;
  crsfChannelData :=
    replicate (Z.to_nat CRSF_MAX_CHANNEL) (u32 (Z.quot (16 * midrc) 10 - 1408));
  crsfFrameStartAtUs := 0;
  lastLinkStatisticsFrameUs := 0;
  crsfFramePosition := 0;
  crsfFrameErrorCnt := 0
|}.

(** ** Link statistics handlers *)

Record crsfLinkStatistics_t : Type := {
  uplink_RSSI_1 : Z;
  uplink_RSSI_2 : Z;
  uplink_Link_quality : Z;
  uplink_SNR : Z;
  active_antenna : Z;
  rf_Mode : Z;
  uplink_TX_Power : Z;
  downlink_RSSI : Z;
  downlink_Link_quality : Z;
  downlink_SNR : Z
}.

(** The cast of [&crsfFrame.frame.payload] to a [crsfLinkStatistics_t] pointer. *)
Definition linkStatisticsOf (f : list Z) : crsfLinkStatistics_t := {|
  uplink_RSSI_1 := payload f 0;
  uplink_RSSI_2 := payload f 1;
  uplink_Link_quality := payload f 2;
  uplink_SNR := i8 (payload f 3);
  active_antenna := payload f 4;
  rf_Mode := payload f 5;
  uplink_TX_Power := payload f 6;
  downlink_RSSI := payload f 7;
  downlink_Link_quality := payload f 8;
  downlink_SNR := i8 (payload f 9)
|}.

(** The value handed to [CRSFsetRSSI]; [rssimin] is a [uint8_t]. *)
Definition linkStatisticsRssi (stats : crsfLinkStatistics_t) : Z :=
  if uplink_RSSI_1 stats =? 0 then uplink_RSSI_2 stats
  else if uplink_RSSI_2 stats =? 0 then uplink_RSSI_1 stats
  else
    let rssimin := u8 (Z.min (uplink_RSSI_1 stats) (uplink_RSSI_2 stats) * -1) in
    rssimin.

Definition handleCrsfLinkStatisticsFrame (stats : crsfLinkStatistics_t) : list call :=
  [ CRSFsetLQ (uplink_Link_quality stats);
    CRSFsetRFMode (rf_Mode stats);
    CRSFsetSnR (downlink_SNR stats);
    CRSFsetTXPower (uplink_TX_Power stats);
    CRSFsetRSSI (linkStatisticsRssi stats) ].

Record crsfLinkStatisticsTx_t : Type := {
  tx_uplink_RSSI : Z;
  tx_uplink_RSSI_percentage : Z;
  tx_uplink_Link_quality : Z;
  tx_uplink_SNR : Z;
  tx_downlink_power : Z;
  tx_uplink_FPS : Z
}.

Definition linkStatisticsTxOf (f : list Z) : crsfLinkStatisticsTx_t := {|
  tx_uplink_RSSI := payload f 0;
  tx_uplink_RSSI_percentage := payload f 1;
  tx_uplink_Link_quality := payload f 2;
  tx_uplink_SNR := i8 (payload f 3);
  tx_downlink_power := payload f 4;
  tx_uplink_FPS := payload f 5
|}.

Definition handleCrsfLinkStatisticsTxFrame (e : crsfEnv)
    (stats : crsfLinkStatisticsTx_t) : list call :=
  let rssiDbm := -1 * tx_uplink_RSSI stats in
  (if rssiSourceIsCrsf e then [setRssi (tx_uplink_RSSI_percentage stats)] else [])
  ++ [setRssiDbm (if crsf_use_rx_snr e then tx_uplink_SNR stats else rssiDbm)]
  ++ (if linkQualitySourceIsCrsf e
      then [setLinkQualityDirect (tx_uplink_Link_quality stats)] else []).

(** ** Frame assembler and dispatcher: [crsfDataReceive] *)

Inductive rxOutcome : Type :=
| ByteIgnored      (* position not below the full frame length: nothing stored *)
| ByteStored       (* byte stored, frame not yet complete *)
| FrameAccepted    (* frame complete, CRC matches, dispatched by type *)
| FrameRejected.   (* frame complete, CRC mismatch *)

Record rxStep : Type := {
  stState : crsfState;
  stIndex : option Z;        (* index of the store into crsfFrame.bytes *)
  stOutcome : rxOutcome;
  stCalls : list call
}.

(** The store [crsfFrame.bytes[i] = v].  Inside the 64 bytes it updates the
    buffer; outside it is still reported in [stIndex] and the buffer is left
    as it was: what the store overwrites behind the buffer is not
    modelled. *)
Definition storeByte (f : list Z) (i v : Z) : list Z :=
  if i <? 0 then f else <[Z.to_nat i := v]> f.

(** The [switch (crsfFrame.frame.type)] of a frame whose CRC matched.  It
    returns the latch, the channel snapshot, the statistics time stamp and the
    calls made. *)
Definition crsfDispatch (e : crsfEnv) (f : list Z) (fullFrameLength currentTimeUs : Z)
    (s : crsfState) : bool * list Z * Z * list call :=
  let keep := (crsfFrameDone s, crsfChannelDataFrame s, lastLinkStatisticsFrameUs s) in
  let ty := frameType f in
  if (ty =? CRSF_FRAMETYPE_RC_CHANNELS_PACKED)
     || (ty =? CRSF_FRAMETYPE_SUBSET_RC_CHANNELS_PACKED) then
    if deviceAddress f =? CRSF_ADDRESS_FLIGHT_CONTROLLER
    then (true, f, lastLinkStatisticsFrameUs s, [])
    else (keep, [])
  else if (ty =? CRSF_FRAMETYPE_MSP_REQ) || (ty =? CRSF_FRAMETYPE_MSP_WRITE) then
    let frameStart := drop (Z.to_nat (3 + CRSF_FRAME_ORIGIN_DEST_SIZE)) f in
    (keep,
     bufferCrsfMspFrame frameStart CRSF_FRAME_RX_MSP_FRAME_SIZE ::
     (if mspFrameBuffered e frameStart then [crsfScheduleMspResponse] else []))
  else if ty =? CRSF_FRAMETYPE_DEVICE_PING then
    (keep, [crsfScheduleDeviceInfoResponse])
  else if ty =? CRSF_FRAMETYPE_DISPLAYPORT_CMD then
    (keep,
     [crsfProcessDisplayPortCmd (drop (Z.to_nat (3 + CRSF_FRAME_ORIGIN_DEST_SIZE)) f)])
  else if ty =? CRSF_FRAMETYPE_LINK_STATISTICS then
    if rssiSourceIsCrsf e
       && (frameLength f =?
           CRSF_FRAME_ORIGIN_DEST_SIZE + CRSF_FRAME_LINK_STATISTICS_PAYLOAD_SIZE)
    then (keep, handleCrsfLinkStatisticsFrame (linkStatisticsOf f))
    else (keep, [])
  else if ty =? CRSF_FRAMETYPE_LINK_STATISTICS_RX then
    (keep, [])
  else if ty =? CRSF_FRAMETYPE_LINK_STATISTICS_TX then
    if rssiSourceIsCrsf e
       && (deviceAddress f =? CRSF_ADDRESS_FLIGHT_CONTROLLER)
       && (frameLength f =?
           CRSF_FRAME_ORIGIN_DEST_SIZE + CRSF_FRAME_LINK_STATISTICS_PAYLOAD_SIZE)
    then (crsfFrameDone s, crsfChannelDataFrame s, currentTimeUs,
          handleCrsfLinkStatisticsTxFrame e (linkStatisticsTxOf f))
    else (keep, [])
  else if ty =? CRSF_FRAMETYPE_COMMAND then
    if (byteAt f (fullFrameLength - 2) =? crsfFrameCmdCRC f)
       && (byteAt f 3 =? CRSF_ADDRESS_FLIGHT_CONTROLLER)
    then (keep,
          [crsfProcessCommand (drop (Z.to_nat (3 + CRSF_FRAME_ORIGIN_DEST_SIZE)) f)])
    else (keep, [])
  else (keep, []).

(** [if (crsfFrameErrorCnt < CRSF_FRAME_ERROR_COUNT_THRESHOLD) crsfFrameErrorCnt++;] *)
Definition bumpErrorCnt (cnt : Z) : Z :=
  if cnt <? CRSF_FRAME_ERROR_COUNT_THRESHOLD then u32 (cnt + 1) else cnt.

(** The receive callback for byte [c] (a [uint16_t]) when [micros()] returns
    [currentTimeUs]. *)
Definition crsfDataReceive (e : crsfEnv) (c currentTimeUs : Z) (s : crsfState) : rxStep :=
  let position :=
    if currentTimeUs >? u32 (crsfFrameStartAtUs s + CRSF_TIME_NEEDED_PER_FRAME_US)
    then 0 else crsfFramePosition s in
  let startAt := if position =? 0 then currentTimeUs else crsfFrameStartAtUs s in
  let fullFrameLength :=
    if position <? 3 then 5
    else frameLength (crsfFrame s)
         + CRSF_FRAME_LENGTH_ADDRESS + CRSF_FRAME_LENGTH_FRAMELENGTH in
  if position <? fullFrameLength then
    let f := storeByte (crsfFrame s) position (u8 c) in
    let position' := u8 (position + 1) in
    let '(done, snapshot, statsAt, cnt, outcome, calls, position'') :=
      if position' >=? fullFrameLength then
        let crc := crsfFrameCRC f in
        if crc =? byteAt f (fullFrameLength - 1) then
          let '(done, snapshot, statsAt, calls) :=
            crsfDispatch e f fullFrameLength currentTimeUs s in
          (done, snapshot, statsAt, 0, FrameAccepted, calls, 0)
        else
          (crsfFrameDone s, crsfChannelDataFrame s, lastLinkStatisticsFrameUs s,
           bumpErrorCnt (crsfFrameErrorCnt s), FrameRejected, [], 0)
      else
        (crsfFrameDone s, crsfChannelDataFrame s, lastLinkStatisticsFrameUs s,
         bumpErrorCnt (crsfFrameErrorCnt s), ByteStored, [], position') in
    let fallback := cnt >=? CRSF_FRAME_ERROR_COUNT_THRESHOLD in
    {| stState := {|
         crsfFrameDone := done;
         crsfFrame := f;
         crsfChannelDataFrame := snapshot;
         crsfChannelData := crsfChannelData s;
         crsfFrameStartAtUs := startAt;
         lastLinkStatisticsFrameUs := statsAt;
         crsfFramePosition := position'';
         crsfFrameErrorCnt := if fallback then 0 else cnt |};
       stIndex := Some position;
       stOutcome := outcome;
       stCalls := calls ++ (if fallback then [setCrsfDefaultSpeed] else []) |}
  else
    {| stState := {|
         crsfFrameDone := crsfFrameDone s;
         crsfFrame := crsfFrame s;
         crsfChannelDataFrame := crsfChannelDataFrame s;
         crsfChannelData := crsfChannelData s;
         crsfFrameStartAtUs := startAt;
         lastLinkStatisticsFrameUs := lastLinkStatisticsFrameUs s;
         crsfFramePosition := position;
         crsfFrameErrorCnt := crsfFrameErrorCnt s |};
       stIndex := None;
       stOutcome := ByteIgnored;
       stCalls := [] |}.

(** A byte stream: each byte with the time [micros()] returns on its arrival. *)
Fixpoint crsfReceiveAll (e : crsfEnv) (input : list (Z * Z)) (s : crsfState)
    : list rxStep :=
  match input with
  | [] => []
  | (c, t) :: rest =>
      let r := crsfDataReceive e c t s in
      r :: crsfReceiveAll e rest (stState r)
  end.

(** The state after the steps of a stream received from [s]. *)
Fixpoint lastState (s : crsfState) (steps : list rxStep) : crsfState :=
  match steps with
  | [] => s
  | r :: rest => lastState (stState r) rest
  end.

(** ** Channel unpacker: [crsfFrameStatus] *)

(** rx/rx.h is not at hand; the two results named by crsf.c. *)
Inductive rxFrameState : Type :=
| RX_FRAME_PENDING
| RX_FRAME_COMPLETE.

(** The store [crsfChannelData[i] = v] into the array of
    [CRSF_MAX_CHANNEL] words.  Outside the array the store is still listed
    among the stores of the poll and the array is left as it was: what the
    store overwrites behind the array is not modelled. *)
Definition storeChannel (d : list Z) (i v : Z) : list Z :=
  if i <? 0 then d else <[Z.to_nat i := v]> d.

(** Little-endian value of [n] payload bytes from [payload[i]] on. *)
Fixpoint payloadBits (f : list Z) (n : nat) (i : Z) : Z :=
  match n with
  | O => 0
  | S n' => payload f i + 256 * payloadBits f n' (i + 1)
  end.

(** Bit-field [chan k] of [crsfPayloadRcChannelsPacked_t]: eleven bits at bit
    offset [11 * k] of the 22 payload bytes (packed struct, little-endian
    target). *)
Definition rcChannel (f : list Z) (k : Z) : Z :=
  Z.land (Z.shiftr (payloadBits f 22 0) (11 * k)) 0x07FF.

(** The sixteen assignments [crsfChannelData[k] = rcChannels->chan k]. *)
Fixpoint unpackFixed (count : nat) (f : list Z) (k : Z) (d : list Z)
    (stores : list (Z * Z)) : list Z * list (Z * Z) :=
  match count with
  | O => (d, stores)
  | S count' =>
      unpackFixed count' f (k + 1) (storeChannel d k (rcChannel f k))
        (stores ++ [(k, rcChannel f k)])
  end.

(** Locals of the subset branch that live across loop iterations. *)
Record subsetReader : Type := {
  readByteIndex : Z;
  bitsMerged : Z;
  readValue : Z;
  startChannel : Z
}.

Definition subsetReaderInit : subsetReader :=
  {| readByteIndex := 0; bitsMerged := 0; readValue := 0; startChannel := 0xFF |}.

(** [while (bitsMerged < CRSF_SUBSET_RC_CHANNELS_PACKED_RESOLUTION) { ... }];
    [None] when [fuel] passes did not end the loop. *)
Fixpoint subsetFill (fuel : nat) (f : list Z) (a : subsetReader) : option subsetReader :=
  if bitsMerged a <? CRSF_SUBSET_RC_CHANNELS_PACKED_RESOLUTION then
    match fuel with
    | O => None
    | S fuel' =>
        let readByte := payload f (readByteIndex a) in
        let index' := u8 (readByteIndex a + 1) in
        if startChannel a =? 0xFF then
          let start := Z.land readByte CRSF_SUBSET_RC_CHANNELS_PACKED_STARTING_CHANNEL_MASK in
          let readByte' :=
            Z.shiftr readByte CRSF_SUBSET_RC_CHANNELS_PACKED_STARTING_CHANNEL_RESOLUTION in
          subsetFill fuel' f
            {| readByteIndex := index';
               bitsMerged :=
                 u8 (bitsMerged a
                     + (8 - CRSF_SUBSET_RC_CHANNELS_PACKED_STARTING_CHANNEL_RESOLUTION));
               readValue := Z.lor (readValue a) (u32 (Z.shiftl readByte' (bitsMerged a)));
               startChannel := start |}
        else
          subsetFill fuel' f
            {| readByteIndex := index';
               bitsMerged := u8 (bitsMerged a + 8);
               readValue := Z.lor (readValue a) (u32 (Z.shiftl readByte (bitsMerged a)));
               startChannel := startChannel a |}
    end
  else Some a.

(** Passes granted to the inner loop: each pass adds at least three bits to a
    count below eleven. *)
Definition subsetFillFuel : nat := 4.

(** [for (n = 0; n < numOfChannels; n++) { ... }]; [count] is the number of
    iterations left. *)
Fixpoint subsetUnpack (count : nat) (f : list Z) (n : Z) (a : subsetReader)
    (d : list Z) (stores : list (Z * Z)) : option (list Z * list (Z * Z)) :=
  match count with
  | O => Some (d, stores)
  | S count' =>
      match subsetFill subsetFillFuel f a with
      | None => None
      | Some a' =>
          let i := startChannel a' + n in
          let v := Z.land (readValue a') CRSF_SUBSET_RC_CHANNELS_PACKED_MASK in
          subsetUnpack count' f (u8 (n + 1))
            {| readByteIndex := readByteIndex a';
               bitsMerged := u8 (bitsMerged a' - CRSF_SUBSET_RC_CHANNELS_PACKED_RESOLUTION);
               readValue := Z.shiftr (readValue a') CRSF_SUBSET_RC_CHANNELS_PACKED_RESOLUTION;
               startChannel := startChannel a' |}
            (storeChannel d i v) (stores ++ [(i, v)])
      end
  end.

(** [uint8_t numOfChannels = ((frameLength - CRSF_FRAME_LENGTH_TYPE_CRC) * 8
    - 5) / 11], in [int] arithmetic with C's truncating division. *)
Definition numOfChannels (f : list Z) : Z :=
  u8 (Z.quot
        ((frameLength f - CRSF_FRAME_LENGTH_TYPE_CRC) * 8
         - CRSF_SUBSET_RC_CHANNELS_PACKED_STARTING_CHANNEL_RESOLUTION)
        CRSF_SUBSET_RC_CHANNELS_PACKED_RESOLUTION).

Record pollResult : Type := {
  pollStatus : rxFrameState;
  pollState : crsfState;
  pollStores : list (Z * Z)   (* stores into crsfChannelData: index, value *)
}.

Definition withChannels (s : crsfState) (d : list Z) : crsfState := {|
  crsfFrameDone := false;
  crsfFrame := crsfFrame s;
  crsfChannelDataFrame := crsfChannelDataFrame s;
  crsfChannelData := d;
  crsfFrameStartAtUs := crsfFrameStartAtUs s;
  lastLinkStatisticsFrameUs := lastLinkStatisticsFrameUs s;
  crsfFramePosition := crsfFramePosition s;
  crsfFrameErrorCnt := crsfFrameErrorCnt s
|}.

Definition crsfFrameStatus (s : crsfState) : option pollResult :=
  if crsfFrameDone s then
    let f := crsfChannelDataFrame s in
    if frameType f =? CRSF_FRAMETYPE_RC_CHANNELS_PACKED then
      let '(d, stores) :=
        unpackFixed (Z.to_nat CRSF_MAX_CHANNEL) f 0 (crsfChannelData s) [] in
      Some {| pollStatus := RX_FRAME_COMPLETE;
              pollState := withChannels s d;
              pollStores := stores |}
    else
      match subsetUnpack (Z.to_nat (numOfChannels f)) f 0 subsetReaderInit
              (crsfChannelData s) [] with
      | None => None
      | Some (d, stores) =>
          Some {| pollStatus := RX_FRAME_COMPLETE;
                  pollState := withChannels s d;
                  pollStores := stores |}
      end
  else
    Some {| pollStatus := RX_FRAME_PENDING; pollState := s; pollStores := [] |}.

(** ** Raw channel read: [crsfReadRawRC] *)

(** [(crsfChannelData[chan] - 992) * 5 / 8 + 1500] on a [uint32_t] element,
    returned as [uint16_t]. *)
Definition rawToPulse (v : Z) : Z :=
  u16 (u32 (u32 (u32 (v - 992) * 5) / 8 + 1500)).

(** [None] when [chan] is not an index of the channel array. *)
Definition crsfReadRawRC (s : crsfState) (chan : Z) : option Z :=
  if chan <? 0 then None
  else match crsfChannelData s !! Z.to_nat chan with
       | Some v => Some (rawToPulse v)
       | None => None
       end.

(** ** Vocabulary of the properties *)

(** A configuration used in examples: RSSI and link quality are taken from
    CRSF, the MSP bridge never reports a complete message. *)
Definition crsfEnvDefault : crsfEnv := {|
  rssiSourceIsCrsf := true;
  linkQualitySourceIsCrsf := true;
  crsf_use_rx_snr := false;
  mspFrameBuffered := fun _ => false
|}.

(** Arguments of the [CRSFsetRSSI] calls among [calls], in order. *)
Fixpoint forwardedRssi (calls : list call) : list Z :=
  match calls with
  | [] => []
  | CRSFsetRSSI v :: rest => v :: forwardedRssi rest
  | _ :: rest => forwardedRssi rest
  end.

(** Number of baud-rate fallback requests among [calls]. *)
Fixpoint fallbackRequests (calls : list call) : nat :=
  match calls with
  | [] => O
  | setCrsfDefaultSpeed :: rest => S (fallbackRequests rest)
  | _ :: rest => fallbackRequests rest
  end.

(** A statistics payload with the given antenna readings. *)
Definition antennaReadings (a b : Z) (rest : crsfLinkStatistics_t) : crsfLinkStatistics_t := {|
  uplink_RSSI_1 := a;
  uplink_RSSI_2 := b;
  uplink_Link_quality := uplink_Link_quality rest;
  uplink_SNR := uplink_SNR rest;
  active_antenna := active_antenna rest;
  rf_Mode := rf_Mode rest;
  uplink_TX_Power := uplink_TX_Power rest;
  downlink_RSSI := downlink_RSSI rest;
  downlink_Link_quality := downlink_Link_quality rest;
  downlink_SNR := downlink_SNR rest
|}.

(** The frame checksum as the spec words it: CRC-8 (DVB-S2) accumulated from 0
    over the given bytes. *)
Definition crc8Over (bytes : list Z) : Z := fold_left crc8_dvb_s2 bytes 0.

(** The command checksum as the spec words it. *)
Definition cmdCrc8Over (bytes : list Z) : Z := fold_left crc8_poly_0xba bytes 0.

(** A frame on the wire: address, length, type, payload, checksum; the length
    byte counts type, payload and checksum. *)
Definition wireFrame (addr ty : Z) (pl : list Z) (crc : Z) : list Z :=
  addr :: (Z.of_nat (length pl) + 2) :: ty :: pl ++ [crc].

(** Eleven-bit value number [n] of a subset payload: the bits from offset
    [5 + 11 * n] of the little-endian payload of [len] bytes. *)
Definition subsetValue (f : list Z) (len : nat) (n : Z) : Z :=
  Z.land (Z.shiftr (payloadBits f len 0) (5 + 11 * n)) 0x07FF.

(** The stores of a poll applied to the channel array, in program order. *)
Fixpoint applyStores (d : list Z) (stores : list (Z * Z)) : list Z :=
  match stores with
  | [] => d
  | (i, v) :: rest => applyStores (storeChannel d i v) rest
  end.

(** The stores the spec asks of a subset frame with [len] payload bytes:
    value [j] goes to channel [start + j], for [count] values from [n] on. *)
Definition subsetStores (f : list Z) (len : nat) (n count : Z) : list (Z * Z) :=
  (fun j => (Z.land (payload f 0) 0x1F + j, subsetValue f len j)) <$> seqZ n count.

(** Invariant of the assembler while the frame [fr], begun at time [t0] from
    the idle state [s], is being received: [k] bytes are in the buffer. *)
Definition assembled (fr : list Z) (t0 : Z) (s : crsfState) (k : nat)
    (st : crsfState) : Prop :=
  crsfFramePosition st = Z.of_nat k
  /\ crsfFrame st = take k fr ++ drop k (crsfFrame s)
  /\ ((0 < k)%nat -> crsfFrameStartAtUs st = t0)
  /\ crsfFrameDone st = crsfFrameDone s
  /\ crsfChannelDataFrame st = crsfChannelDataFrame s
  /\ crsfChannelData st = crsfChannelData s.

(** Invariant of the subset unpacker at the head of its loops: [n] values
    have been extracted and [k] payload bytes read. *)
Definition subsetReaderAt (f : list Z) (n : Z) (k : nat) (a : subsetReader) : Prop :=
  readByteIndex a = Z.of_nat k
  /\ ((k = 0%nat /\ n = 0 /\ a = subsetReaderInit)
      \/ ((0 < k)%nat
          /\ startChannel a = Z.land (payload f 0) 0x1F
          /\ bitsMerged a = 8 * Z.of_nat k - 5 - 11 * n
          /\ readValue a = payloadBits f k 0 / 2 ^ (5 + 11 * n))).

(** The state [s] with the byte position forced to 0. *)
Definition resetPosition (s : crsfState) : crsfState := {|
  crsfFrameDone := crsfFrameDone s;
  crsfFrame := crsfFrame s;
  crsfChannelDataFrame := crsfChannelDataFrame s;
  crsfChannelData := crsfChannelData s;
  crsfFrameStartAtUs := crsfFrameStartAtUs s;
  lastLinkStatisticsFrameUs := lastLinkStatisticsFrameUs s;
  crsfFramePosition := 0;
  crsfFrameErrorCnt := crsfFrameErrorCnt s
|}.

(** ** Concrete inputs used in examples *)

(** A stream whose length byte 0xFF announces 257 bytes on the wire, one byte
    every 5 microseconds. *)
Definition overlongStream : list (Z * Z) :=
  zip ([0xC8; 0xFF; 0x16] ++ replicate 62 0) ((λ k, 5 * k) <$> seqZ 0 65).

(** A subset frame to the flight controller with two payload bytes, the low
    five bits of the first being 31, and the matching checksum. *)
Definition subsetOverrunFrame : list Z :=
  wireFrame CRSF_ADDRESS_FLIGHT_CONTROLLER CRSF_FRAMETYPE_SUBSET_RC_CHANNELS_PACKED
    [0x1F; 0x00] (crc8Over [CRSF_FRAMETYPE_SUBSET_RC_CHANNELS_PACKED; 0x1F; 0x00]).

(** The receiver after address and length byte of a frame begun at time 0. *)
Definition partialFrameState : crsfState :=
  lastState (crsfRxInit 1500)
    (crsfReceiveAll crsfEnvDefault [(0xC8, 0); (0x18, 22)] (crsfRxInit 1500)).

(** The receiver waiting for a frame with 99 errors counted. *)
Definition nearFallbackState : crsfState := {|
  crsfFrameDone := false;
  crsfFrame := zeroFrame;
  crsfChannelDataFrame := zeroFrame;
  crsfChannelData := replicate (Z.to_nat CRSF_MAX_CHANNEL) 992;
  crsfFrameStartAtUs := 0;
  lastLinkStatisticsFrameUs := 0;
  crsfFramePosition := 0;
  crsfFrameErrorCnt := 99
|}.

(** A subset frame to the flight controller: starting channel 4 and the two
    values 100 and 2000, packed into four payload bytes. *)
Definition subsetExampleFrame : list Z :=
  wireFrame CRSF_ADDRESS_FLIGHT_CONTROLLER CRSF_FRAMETYPE_SUBSET_RC_CHANNELS_PACKED
    [132; 12; 208; 7]
    (crc8Over [CRSF_FRAMETYPE_SUBSET_RC_CHANNELS_PACKED; 132; 12; 208; 7]).

(** The receiver after [subsetExampleFrame], one byte per microsecond. *)
Definition subsetExampleState : crsfState :=
  lastState (crsfRxInit 1500)
    (crsfReceiveAll crsfEnvDefault (zip subsetExampleFrame (seqZ 0 8)) (crsfRxInit 1500)).

(** A command frame addressed to the flight controller, with both checksums
    right. *)
Definition commandExampleData : list Z := [0xC8; 0xEA; 0x0A; 0x70; 0x01].

Definition commandExampleFrame : list Z :=
  let pl := commandExampleData
            ++ [cmdCrc8Over (CRSF_FRAMETYPE_COMMAND :: commandExampleData)] in
  wireFrame CRSF_ADDRESS_FLIGHT_CONTROLLER CRSF_FRAMETYPE_COMMAND pl
    (crc8Over (CRSF_FRAMETYPE_COMMAND :: pl)).

(** The receiver before the last byte of [commandExampleFrame]. *)
Definition commandExampleState : crsfState :=
  lastState (crsfRxInit 1500)
    (crsfReceiveAll crsfEnvDefault
       (zip (take 9 commandExampleFrame) (seqZ 0 9)) (crsfRxInit 1500)).

(** [subsetExampleFrame] on the wire, one byte per microsecond, the first
    byte at time [t0]. *)
Definition subsetExampleStream (t0 : Z) : list (Z * Z) :=
  zip subsetExampleFrame ((λ k, t0 + k) <$> seqZ 0 8).

(** A frame of 64 bytes, the largest the buffer holds: display-port type,
    60 payload bytes 0 and the checksum byte [crc]. *)
Definition longFrame (crc : Z) : list Z :=
  wireFrame CRSF_ADDRESS_FLIGHT_CONTROLLER CRSF_FRAMETYPE_DISPLAYPORT_CMD
    (replicate 60 0) crc.

Definition longFrameCrc : Z :=
  crc8Over (CRSF_FRAMETYPE_DISPLAYPORT_CMD :: replicate 60 0).

(** One [longFrame] with a wrong checksum, then the first 36 bytes of the
    [longFrame] with the right one; a byte per microsecond from time 0. *)
Definition oneBadFrameStream : list (Z * Z) :=
  zip (longFrame (u8 (longFrameCrc + 1)) ++ take 36 (longFrame longFrameCrc))
      (seqZ 0 100).

(** A header whose length byte is 1, less than any frame has, and two more
    bytes; a byte per microsecond from time 0. *)
Definition badLengthStream : list (Z * Z) :=
  zip [0xC8; 0x01; 0x16; 0x00; 0x00] (seqZ 0 5).

(** * Further definitions *)

(** ** Telemetry output slot: [crsfRxWriteTelemetryData], [crsfRxSendTelemetryData] *)

(** The statics [telemetryBuf] (64 bytes) and [telemetryBufLen] (a [uint8_t]). *)
Record telemetrySlot : Type := {
  telemetryBuf : list Z;
  telemetryBufLen : Z
}.

Definition telemetrySlotInit : telemetrySlot :=
  {| telemetryBuf := zeroFrame; telemetryBufLen := 0 |}.

(** [crsfRxWriteTelemetryData(data, len)], where [data] lists the bytes at the
    pointer.  [memcpy] is defined for [0 <= len] not beyond the bytes at
    [data]; there it overwrites the first [MIN(len, 64)] bytes of the slot. *)
Definition crsfRxWriteTelemetryData (data : list Z) (len : Z) (t : telemetrySlot)
    : telemetrySlot :=
  let len' := Z.min len CRSF_FRAME_SIZE_MAX in
  {| telemetryBuf :=
       take (Z.to_nat len') data ++ drop (Z.to_nat len') (telemetryBuf t);
     telemetryBufLen := u8 len' |}.

(** [crsfRxSendTelemetryData()]: the bytes handed to [serialWriteBuf], if any,
    and the slot afterwards. *)
Definition crsfRxSendTelemetryData (t : telemetrySlot) : option (list Z) * telemetrySlot :=
  if telemetryBufLen t >? 0 then
    (Some (take (Z.to_nat (telemetryBufLen t)) (telemetryBuf t)),
     {| telemetryBuf := telemetryBuf t; telemetryBufLen := 0 |})
  else (None, t).

(** Eleven-bit values packed from bit 0 upwards, as one number. *)
Fixpoint packBits (vals : list Z) : Z :=
  match vals with
  | [] => 0
  | v :: rest => v + 2048 * packBits rest
  end.

Definition is11Bit (v : Z) : Prop := 0 <= v < 2048.

(** One frame on the wire with its arrival times: address, type, payload,
    checksum, time of the first byte, times of the other bytes. *)
Record delivery : Type := {
  dAddr : Z;
  dType : Z;
  dPayload : list Z;
  dCrc : Z;
  dStart : Z;
  dTimes : list Z
}.

Definition deliveryFrame (d : delivery) : list Z :=
  wireFrame (dAddr d) (dType d) (dPayload d) (dCrc d).

Definition deliveryInput (d : delivery) : list (Z * Z) :=
  zip (deliveryFrame d) (dStart d :: dTimes d).

(** A well-formed frame of at most 64 bytes with the right checksum, each
    byte arriving no later than 1100 microseconds after the first.  Nothing
    is said here of where the delivery lies with respect to the wrap of the
    timer. *)
Definition goodDelivery (d : delivery) : Prop :=
  Forall isByte (deliveryFrame d)
  /\ (length (deliveryFrame d) <= 64)%nat
  /\ length (dTimes d) = (length (dPayload d) + 3)%nat
  /\ 0 <= dStart d
  /\ Forall (fun t => t <= dStart d + CRSF_TIME_NEEDED_PER_FRAME_US) (dTimes d)
  /\ crc8Over (dType d :: dPayload d) = dCrc d.

(** A call of the receive callback whose store, if it makes one, is inside
    [crsfFrame.bytes]. *)
Definition storeInBuffer (r : rxStep) : Prop :=
  match stIndex r with
  | Some i => 0 <= i < CRSF_FRAME_SIZE_MAX
  | None => True
  end.

(** Stores of a poll that are all inside [crsfChannelData]. *)
Definition storesInChannels (stores : list (Z * Z)) : Prop :=
  Forall (fun iv => 0 <= iv.1 < CRSF_MAX_CHANNEL) stores.

(** All calls made while a stream is received. *)
Definition allCalls (steps : list rxStep) : list call :=
  concat (stCalls <$> steps).

(** The stores the code makes for a fixed-format frame. *)
Definition fixedStores (f : list Z) (k count : Z) : list (Z * Z) :=
  (fun j => (j, rcChannel f j)) <$> seqZ k count.

(** ** Views and examples *)

(** What a poll shows to its caller: status, stores and channel values. *)
Definition pollView (r : pollResult) : rxFrameState * list (Z * Z) * list Z :=
  (pollStatus r, pollStores r, crsfChannelData (pollState r)).

(** What a received byte shows outside the state: outcome, store index, calls. *)
Definition stepView (r : rxStep) : rxOutcome * option Z * list call :=
  (stOutcome r, stIndex r, stCalls r).

(** The variables the assembler reads besides the byte and the time. *)
Definition sameAssembler (s1 s2 : crsfState) : Prop :=
  crsfFrame s1 = crsfFrame s2
  /\ crsfFramePosition s1 = crsfFramePosition s2
  /\ crsfFrameStartAtUs s1 = crsfFrameStartAtUs s2
  /\ crsfFrameErrorCnt s1 = crsfFrameErrorCnt s2.

(** Sixteen channel values and the 22 payload bytes that pack them. *)
Definition fixedExampleValues : list Z :=
  [992; 172; 1811; 1000; 0; 2047; 992; 992; 100; 200; 300; 400; 500; 600; 700; 800].

Definition fixedExamplePayload : list Z :=
  [224; 99; 197; 196; 209; 7; 128; 255; 131; 15; 124;
   100; 64; 6; 75; 32; 67; 31; 44; 241; 10; 100].

Definition fixedExampleFrame : list Z :=
  wireFrame CRSF_ADDRESS_FLIGHT_CONTROLLER CRSF_FRAMETYPE_RC_CHANNELS_PACKED
    fixedExamplePayload
    (crc8Over (CRSF_FRAMETYPE_RC_CHANNELS_PACKED :: fixedExamplePayload)).

(** The receiver after [fixedExampleFrame], one byte per microsecond. *)
Definition fixedExampleState : crsfState :=
  lastState (crsfRxInit 1500)
    (crsfReceiveAll crsfEnvDefault (zip fixedExampleFrame (seqZ 0 26)) (crsfRxInit 1500)).

(** The receiver after a header whose length byte is 1. *)
Definition stalledState : crsfState :=
  lastState (crsfRxInit 1500)
    (crsfReceiveAll crsfEnvDefault [(0xC8, 0); (0x01, 1); (0x16, 2)] (crsfRxInit 1500)).

(** [subsetExampleFrame] delivered from time [t0] on, a byte per microsecond. *)
Definition subsetExampleDelivery (t0 : Z) : delivery := {|
  dAddr := CRSF_ADDRESS_FLIGHT_CONTROLLER;
  dType := CRSF_FRAMETYPE_SUBSET_RC_CHANNELS_PACKED;
  dPayload := [132; 12; 208; 7];
  dCrc := crc8Over [CRSF_FRAMETYPE_SUBSET_RC_CHANNELS_PACKED; 132; 12; 208; 7];
  dStart := t0;
  dTimes := (fun k => t0 + k) <$> seqZ 1 7
|}.

(** The receiver before the last byte of [subsetExampleFrame]. *)
Definition subsetAlmostState : crsfState :=
  lastState (crsfRxInit 1500)
    (crsfReceiveAll crsfEnvDefault (take 7 (subsetExampleStream 0)) (crsfRxInit 1500)).

(** The receiver with a frame begun 100 microseconds before the timer wraps. *)
Definition rolloverState : crsfState :=
  lastState (crsfRxInit 1500)
    (crsfReceiveAll crsfEnvDefault [(0xC8, 4294967196)] (crsfRxInit 1500)).

(** The receiver after [fixedExampleFrame] has been polled. *)
Definition fixedExamplePolled : crsfState :=
  match crsfFrameStatus fixedExampleState with
  | Some r => pollState r
  | None => fixedExampleState
  end.

(** * Properties *)

(** ** Raw channel read *)

Lemma rawToPulse_floor (v : Z) :
  0 <= v < 2048 -> rawToPulse v = (v - 992) * 5 / 8 + 1500.
Proof.
  intros Hv. unfold rawToPulse, u16, u32.
  Z.div_mod_to_equations. lia.
Qed.

(** C8: for a stored 11-bit channel value [v], [crsfReadRawRC] returns
    [(v - 992) * 5 / 8 + 1500] (the unsigned 32-bit arithmetic of the code,
    cut to 16 bits, agrees with the formula under rounding down): 992 gives
    1500, 172 gives 987 (about 988) and 1811 gives 2011 (about 2012). *)
Theorem crsfReadRawRC_pulse_width (s : crsfState) (chan v : Z)
    (Hchan : 0 <= chan)
    (Hlook : crsfChannelData s !! Z.to_nat chan = Some v)
    (Hv : 0 <= v < 2048) :
  crsfReadRawRC s chan = Some ((v - 992) * 5 / 8 + 1500)
  /\ (v = 992 -> crsfReadRawRC s chan = Some 1500)
  /\ (v = 172 -> crsfReadRawRC s chan = Some 987)
  /\ (v = 1811 -> crsfReadRawRC s chan = Some 2011).
Proof.
  assert (Hr : crsfReadRawRC s chan = Some ((v - 992) * 5 / 8 + 1500)).
  { unfold crsfReadRawRC. destruct (Z.ltb_spec chan 0); [lia|].
    rewrite Hlook. f_equal. by apply rawToPulse_floor. }
  repeat split; [exact Hr | intros -> ..]; rewrite Hr; reflexivity.
Qed.

Lemma crsfReadRawRC_pulse_width_witness :
  crsfReadRawRC (crsfRxInit 1500) 3 = Some ((992 - 992) * 5 / 8 + 1500).
Proof.
  eapply proj1.
  apply (crsfReadRawRC_pulse_width (crsfRxInit 1500) 3 992);
    [lia | reflexivity | lia ..].
Defined.

(** ** Link statistics *)

(** C7, as stated, fails: with both antennas present the handler does not
    forward the negated minimum; for readings (20, 50) it forwards 236. *)
Lemma linkStatistics_rssi_negated_minimum_fails :
  ~ (forall stats : crsfLinkStatistics_t,
       isByte (uplink_RSSI_1 stats) -> isByte (uplink_RSSI_2 stats) ->
       uplink_RSSI_1 stats <> 0 -> uplink_RSSI_2 stats <> 0 ->
       forwardedRssi (handleCrsfLinkStatisticsFrame stats)
       = [- Z.min (uplink_RSSI_1 stats) (uplink_RSSI_2 stats)]).
Proof.
  intros H.
  specialize (H (antennaReadings 20 50 (linkStatisticsOf zeroFrame))).
  cbn [antennaReadings uplink_RSSI_1 uplink_RSSI_2] in H.
  specialize (H ltac:(unfold isByte; lia) ltac:(unfold isByte; lia)
                ltac:(lia) ltac:(lia)).
  vm_compute in H. discriminate H.
Qed.

(** C7, amended: the handler makes one [CRSFsetRSSI] call; it forwards the
    second reading when the first is 0, the first when the second is 0, and
    otherwise the negated minimum as an unsigned byte, [256 - min]: (0, 40)
    forwards 40, (30, 0) forwards 30 and (20, 50) forwards 236. *)
Theorem linkStatistics_rssi (stats : crsfLinkStatistics_t)
    (H1 : isByte (uplink_RSSI_1 stats)) (H2 : isByte (uplink_RSSI_2 stats)) :
  let a := uplink_RSSI_1 stats in
  let b := uplink_RSSI_2 stats in
  forwardedRssi (handleCrsfLinkStatisticsFrame stats)
  = [ if a =? 0 then b else if b =? 0 then a else 256 - Z.min a b ]
  /\ (a = 0 -> b = 40 -> forwardedRssi (handleCrsfLinkStatisticsFrame stats) = [40])
  /\ (a = 30 -> b = 0 -> forwardedRssi (handleCrsfLinkStatisticsFrame stats) = [30])
  /\ (a = 20 -> b = 50 -> forwardedRssi (handleCrsfLinkStatisticsFrame stats) = [236]).
Proof.
  intros a b.
  assert (Hg : forwardedRssi (handleCrsfLinkStatisticsFrame stats)
               = [ if a =? 0 then b else if b =? 0 then a else 256 - Z.min a b ]).
  { unfold handleCrsfLinkStatisticsFrame, linkStatisticsRssi. simpl. fold a b.
    f_equal. unfold isByte in *. fold a b in H1, H2.
    destruct (Z.eqb_spec a 0); [done|]. destruct (Z.eqb_spec b 0); [done|].
    unfold u8. Z.div_mod_to_equations. lia. }
  repeat split; [exact Hg | intros Ha Hb ..]; rewrite Hg, Ha, Hb; reflexivity.
Qed.

Lemma linkStatistics_rssi_witness :
  forwardedRssi
    (handleCrsfLinkStatisticsFrame (antennaReadings 20 50 (linkStatisticsOf zeroFrame)))
  = [236].
Proof.
  apply (linkStatistics_rssi (antennaReadings 20 50 (linkStatisticsOf zeroFrame)));
    [unfold isByte; simpl; lia | unfold isByte; simpl; lia | reflexivity | reflexivity].
Defined.

(** ** Frame-status poll *)

(** The inner loop of the subset unpacker ends within the passes granted. *)
Lemma subsetFill_ends (f : list Z) (fuel : nat) (a : subsetReader) :
  0 <= bitsMerged a < 19 ->
  11 - bitsMerged a <= 3 * Z.of_nat fuel ->
  exists a', subsetFill fuel f a = Some a' /\ 11 <= bitsMerged a' < 19.
Proof.
  revert a. induction fuel as [|fuel IH]; intros a Hb Hfuel.
  - exists a. simpl. unfold CRSF_SUBSET_RC_CHANNELS_PACKED_RESOLUTION.
    destruct (Z.ltb_spec (bitsMerged a) 11); [lia|]. split; [done|lia].
  - simpl. unfold CRSF_SUBSET_RC_CHANNELS_PACKED_RESOLUTION.
    destruct (Z.ltb_spec (bitsMerged a) 11) as [Hlt|Hge].
    + destruct (startChannel a =? 255); apply IH; simpl;
        unfold u8, CRSF_SUBSET_RC_CHANNELS_PACKED_STARTING_CHANNEL_RESOLUTION;
        rewrite Z.mod_small by lia; lia.
    + exists a. split; [done|lia].
Qed.

Lemma subsetUnpack_total (f : list Z) (count : nat) :
  forall n a d stores, 0 <= bitsMerged a < 11 ->
  exists r, subsetUnpack count f n a d stores = Some r.
Proof.
  induction count as [|count IH]; intros n a d stores Hb;
    cbn [subsetUnpack]; [eauto|].
  destruct (subsetFill_ends f subsetFillFuel a) as (a' & -> & Hb');
    [lia | unfold subsetFillFuel; lia |].
  apply IH. simpl. unfold u8, CRSF_SUBSET_RC_CHANNELS_PACKED_RESOLUTION.
  rewrite Z.mod_small by lia. lia.
Qed.

(** The poll always returns. *)
Lemma crsfFrameStatus_total (s : crsfState) : exists r, crsfFrameStatus s = Some r.
Proof.
  unfold crsfFrameStatus. destruct (crsfFrameDone s); [|eauto].
  destruct (frameType _ =? _).
  - destruct (unpackFixed _ _ _ _ _). eauto.
  - destruct (subsetUnpack_total (crsfChannelDataFrame s)
                (Z.to_nat (numOfChannels (crsfChannelDataFrame s))) 0
                subsetReaderInit (crsfChannelData s) []) as [[d st] ->];
      [simpl; lia | eauto].
Qed.

Lemma crsfFrameStatus_pending (s : crsfState) :
  crsfFrameDone s = false ->
  crsfFrameStatus s
  = Some {| pollStatus := RX_FRAME_PENDING; pollState := s; pollStores := [] |}.
Proof. intros Hd. unfold crsfFrameStatus. by rewrite Hd. Qed.

Lemma crsfFrameStatus_latched (s : crsfState) (r : pollResult) :
  crsfFrameDone s = true ->
  crsfFrameStatus s = Some r ->
  pollStatus r = RX_FRAME_COMPLETE /\ crsfFrameDone (pollState r) = false.
Proof.
  unfold crsfFrameStatus. intros -> Hr. destruct (frameType _ =? _).
  - destruct (unpackFixed _ _ _ _ _). by injection Hr as <-.
  - destruct (subsetUnpack _ _ _ _ _ _) as [[d st]|]; [|done].
    by injection Hr as <-.
Qed.

(** C10: every poll returns; with the latch clear it returns "pending", makes
    no store and leaves the state (so the channel data) as it was, and so does
    the poll after it; a poll that returns "complete" leaves the latch clear
    and the poll after it returns "pending" without a store. *)
Theorem crsfFrameStatus_poll_idempotent (s : crsfState) :
  exists r1 r2,
    crsfFrameStatus s = Some r1
    /\ crsfFrameStatus (pollState r1) = Some r2
    /\ (crsfFrameDone s = false ->
        pollStatus r1 = RX_FRAME_PENDING /\ pollStatus r2 = RX_FRAME_PENDING
        /\ pollStores r1 = [] /\ pollStores r2 = []
        /\ pollState r1 = s /\ pollState r2 = s)
    /\ (pollStatus r1 = RX_FRAME_COMPLETE ->
        crsfFrameDone (pollState r1) = false
        /\ pollStatus r2 = RX_FRAME_PENDING /\ pollStores r2 = []
        /\ pollState r2 = pollState r1).
Proof.
  destruct (crsfFrameStatus_total s) as [r1 Hr1].
  destruct (crsfFrameDone s) eqn:Hd.
  - destruct (crsfFrameStatus_latched s r1 Hd Hr1) as [_ Hd1].
    eexists r1, _. split; [done|]. split; [by apply crsfFrameStatus_pending|].
    split; [done|]. done.
  - pose proof (crsfFrameStatus_pending s Hd) as Hp.
    rewrite Hp in Hr1. injection Hr1 as <-.
    eexists _, _. split; [exact Hp|]. split; [exact Hp|]. simpl.
    split; [done|]. done.
Qed.

(** ** Stores of the assembler and of the unpacker *)

(** The assembler stores at the current position whenever that position is
    below the announced frame length; the buffer size is not consulted. *)
Lemma crsfDataReceive_store_index (e : crsfEnv) (c t : Z) (s : crsfState) :
  3 <= crsfFramePosition s ->
  crsfFramePosition s < frameLength (crsfFrame s) + 2 ->
  t <= u32 (crsfFrameStartAtUs s + CRSF_TIME_NEEDED_PER_FRAME_US) ->
  stIndex (crsfDataReceive e c t s) = Some (crsfFramePosition s).
Proof.
  intros Hp Hlen Ht. unfold crsfDataReceive.
  destruct (Z.gtb_spec t (u32 (crsfFrameStartAtUs s + CRSF_TIME_NEEDED_PER_FRAME_US)));
    [lia|].
  destruct (Z.ltb_spec (crsfFramePosition s) 3); [lia|].
  unfold CRSF_FRAME_LENGTH_ADDRESS, CRSF_FRAME_LENGTH_FRAMELENGTH.
  destruct (Z.ltb_spec (crsfFramePosition s) (frameLength (crsfFrame s) + 1 + 1));
    [|lia].
  destruct (_ >=? _); [destruct (_ =? _)|]; [|reflexivity..].
  by destruct (crsfDispatch _ _ _ _ _) as [[[dn sn] st] calls].
Qed.

(** C1, the code at a failing input: after the length byte 0xFF (257 bytes
    announced) the 65th byte of [overlongStream] is stored at index 64, past
    the end of the 64-byte frame buffer. *)
Theorem crsfDataReceive_store_past_buffer :
  let steps := crsfReceiveAll crsfEnvDefault overlongStream (crsfRxInit 1500) in
  exists r,
    last steps = Some r
    /\ frameLength (crsfFrame (stState r)) + 2 = 257
    /\ stIndex r = Some 64
    /\ CRSF_FRAME_SIZE_MAX <= 64.
Proof.
  eexists. split; [vm_compute; reflexivity|]. vm_compute. repeat split; discriminate.
Qed.

(** C3: the CRC-valid subset frame [subsetOverrunFrame], whose first payload
    byte has its low five bits equal to 31, is accepted and latched by the
    assembler, and the poll that unpacks it stores at index 31 of the
    16-element channel array. *)
Theorem subsetUnpack_store_outside_channels :
  exists frame times : list Z,
    let steps := crsfReceiveAll crsfEnvDefault (zip frame times) (crsfRxInit 1500) in
    let s := lastState (crsfRxInit 1500) steps in
    frame = subsetOverrunFrame
    /\ stOutcome <$> steps = replicate 5 ByteStored ++ [FrameAccepted]
    /\ crsfFrameDone s = true
    /\ frameType (crsfChannelDataFrame s) = CRSF_FRAMETYPE_SUBSET_RC_CHANNELS_PACKED
    /\ Z.land (payload (crsfChannelDataFrame s) 0) 0x1F = 31
    /\ exists r i v,
         crsfFrameStatus s = Some r
         /\ pollStatus r = RX_FRAME_COMPLETE
         /\ pollStores r = [(i, v)]
         /\ CRSF_MAX_CHANNEL <= i.
Proof.
  exists subsetOverrunFrame, (seqZ 0 6).
  repeat split; try reflexivity.
  eexists _, 31, 0. vm_compute. repeat split. discriminate.
Qed.

(** ** Resynchronisation on timeout *)




(** ** Error counter and baud-rate fallback *)

Lemma fallbackRequests_app (l1 l2 : list call) :
  fallbackRequests (l1 ++ l2) = (fallbackRequests l1 + fallbackRequests l2)%nat.
Proof.
  induction l1 as [|x l1 IH]; [done|]. destruct x; simpl; rewrite ?IH; done.
Qed.

Lemma crsfDispatch_no_fallback (e : crsfEnv) (f : list Z) (full t : Z) (s : crsfState) :
  fallbackRequests (crsfDispatch e f full t s).2 = 0%nat.
Proof.
  unfold crsfDispatch, handleCrsfLinkStatisticsTxFrame.
  repeat match goal with
         | |- context [if ?b then _ else _] => destruct b
         end; reflexivity.
Qed.

(** The counter is not incremented by frame failures only: a stored byte
    that is no frame failure, such as the first byte of a frame, increments
    it too. *)
Lemma crsfFrameErrorCnt_only_failures_fails :
  ~ (forall (e : crsfEnv) (c t : Z) (s : crsfState),
       let r := crsfDataReceive e c t s in
       crsfFrameErrorCnt s < crsfFrameErrorCnt (stState r) ->
       stOutcome r = FrameRejected \/ stOutcome r = ByteIgnored).
Proof.
  intros H.
  destruct (H crsfEnvDefault 0xC8 0 (crsfRxInit 1500)) as [Ho|Ho];
    [vm_compute; reflexivity | vm_compute in Ho; discriminate Ho ..].
Qed.

(** The counter as the code keeps it: it stays below 100; a frame with a
    valid CRC resets it to 0 and an ignored byte leaves it as it was, neither
    with a fallback request; a stored byte that does not complete a frame and
    a frame with a bad CRC increment it by one, and when that increment
    reaches 100 the call issues exactly one baud-rate fallback request and
    resets it to 0. *)
Theorem crsfFrameErrorCnt_step (e : crsfEnv) (c t : Z) (s : crsfState)
    (Hcnt : 0 <= crsfFrameErrorCnt s < CRSF_FRAME_ERROR_COUNT_THRESHOLD) :
  let r := crsfDataReceive e c t s in
  let cnt := crsfFrameErrorCnt s in
  let cnt' := crsfFrameErrorCnt (stState r) in
  0 <= cnt' < CRSF_FRAME_ERROR_COUNT_THRESHOLD
  /\ match stOutcome r with
     | ByteIgnored => cnt' = cnt /\ fallbackRequests (stCalls r) = 0%nat
     | FrameAccepted => cnt' = 0 /\ fallbackRequests (stCalls r) = 0%nat
     | ByteStored | FrameRejected =>
         if cnt + 1 =? CRSF_FRAME_ERROR_COUNT_THRESHOLD
         then cnt' = 0 /\ fallbackRequests (stCalls r) = 1%nat
         else cnt' = cnt + 1 /\ fallbackRequests (stCalls r) = 0%nat
     end.
Proof.
  unfold CRSF_FRAME_ERROR_COUNT_THRESHOLD in *.
  assert (Hbump : bumpErrorCnt (crsfFrameErrorCnt s) = crsfFrameErrorCnt s + 1).
  { unfold bumpErrorCnt, CRSF_FRAME_ERROR_COUNT_THRESHOLD, u32.
    destruct (Z.ltb_spec (crsfFrameErrorCnt s) 100); [|lia].
    apply Z.mod_small. lia. }
  unfold crsfDataReceive.
  set (position := if _ >? _ then 0 else _).
  set (full := if position <? 3 then 5 else _).
  destruct (position <? full); [|simpl; lia].
  destruct (u8 (position + 1) >=? full).
  - destruct (crsfFrameCRC _ =? _).
    + pose proof (crsfDispatch_no_fallback e
        (storeByte (crsfFrame s) position (u8 c)) full t s) as Hd.
      destruct (crsfDispatch _ _ _ _ _) as [[[dn sn] st] calls].
      simpl in *. rewrite fallbackRequests_app, Hd. simpl. lia.
    + rewrite Hbump. unfold CRSF_FRAME_ERROR_COUNT_THRESHOLD. simpl.
      destruct (Z.geb_spec (crsfFrameErrorCnt s + 1) 100);
        destruct (Z.eqb_spec (crsfFrameErrorCnt s + 1) 100); simpl; lia.
  - rewrite Hbump. unfold CRSF_FRAME_ERROR_COUNT_THRESHOLD. simpl.
    destruct (Z.geb_spec (crsfFrameErrorCnt s + 1) 100);
      destruct (Z.eqb_spec (crsfFrameErrorCnt s + 1) 100); simpl; lia.
Qed.

Lemma crsfFrameErrorCnt_step_witness :
  let r := crsfDataReceive crsfEnvDefault 0xC8 0 nearFallbackState in
  stOutcome r = ByteStored
  /\ crsfFrameErrorCnt (stState r) = 0
  /\ fallbackRequests (stCalls r) = 1%nat.
Proof.
  split; [reflexivity|].
  pose proof (crsfFrameErrorCnt_step crsfEnvDefault 0xC8 0 nearFallbackState
                ltac:(vm_compute; split; congruence)) as H.
  apply proj2 in H. exact H.
Defined.

(** C6, the code at a failing input: [oneBadFrameStream] holds one failed
    frame (64 bytes, wrong checksum) followed by the first 36 bytes of a
    frame with the right checksum.  The counter is incremented by each of the
    100 bytes, the 99 that fail nothing included, so it runs 1, 2, ..., 99
    and the hundredth byte, a payload byte of the good frame, requests the
    baud-rate fallback: after one frame failure, not one hundred.  In
    [badLengthStream] the length byte 1 is a bad length; the bytes after the
    header are ignored and the counter is not incremented for them. *)
Theorem crsfFrameErrorCnt_fallback_after_one_bad_frame :
  let steps := crsfReceiveAll crsfEnvDefault oneBadFrameStream (crsfRxInit 1500) in
  let bad := crsfReceiveAll crsfEnvDefault badLengthStream (crsfRxInit 1500) in
  stOutcome <$> steps
  = replicate 63 ByteStored ++ [FrameRejected] ++ replicate 36 ByteStored
  /\ (fun r => crsfFrameErrorCnt (stState r)) <$> steps = seqZ 1 99 ++ [0]
  /\ stCalls <$> steps = replicate 99 [] ++ [[setCrsfDefaultSpeed]]
  /\ stOutcome <$> bad = [ByteStored; ByteStored; ByteStored; ByteIgnored; ByteIgnored]
  /\ (fun r => crsfFrameErrorCnt (stState r)) <$> bad = [1; 2; 3; 3; 3].
Proof. vm_compute. repeat split; reflexivity. Qed.

(** ** Frame assembly *)

Lemma byteAt_lookup (f : list Z) (k : nat) (v : Z) :
  f !! k = Some v -> byteAt f (Z.of_nat k) = v.
Proof.
  intros H. unfold byteAt. destruct (Z.ltb_spec (Z.of_nat k) 0); [lia|].
  by rewrite Nat2Z.id, H.
Qed.

Lemma storeByte_nat (f : list Z) (k : nat) (v : Z) :
  storeByte f (Z.of_nat k) v = <[k := v]> f.
Proof.
  unfold storeByte. destruct (Z.ltb_spec (Z.of_nat k) 0); [lia|].
  by rewrite Nat2Z.id.
Qed.

Lemma length_storeByte (f : list Z) (i v : Z) : length (storeByte f i v) = length f.
Proof. unfold storeByte. destruct (i <? 0); [done|]. apply length_insert. Qed.

Lemma byteAt_storeByte_ne (f : list Z) (i j v : Z) :
  0 <= i -> 0 <= j -> i <> j -> byteAt (storeByte f i v) j = byteAt f j.
Proof.
  intros Hi Hj Hne. unfold byteAt, storeByte.
  destruct (Z.ltb_spec i 0); [lia|]. destruct (Z.ltb_spec j 0); [lia|].
  rewrite list_lookup_insert_ne; [done|]. lia.
Qed.

(** The checksum loops read the payload bytes in order. *)
Lemma crcLoop_fold (step : Z -> Z -> Z) (f : list Z) (n : nat) :
  forall (ii : nat) (crc : Z),
    (3 + ii + n <= length f)%nat ->
    crcLoop step f n (Z.of_nat ii) crc = fold_left step (take n (drop (3 + ii) f)) crc.
Proof.
  induction n as [|n IH]; intros ii crc Hlen; [reflexivity|].
  destruct (lookup_lt_is_Some_2 f (3 + ii) ltac:(lia)) as [x Hx].
  rewrite (drop_S _ _ _ Hx). cbn [crcLoop take fold_left].
  replace (Z.of_nat ii + 1) with (Z.of_nat (S ii)) by lia.
  rewrite IH by lia. unfold payload.
  replace (3 + Z.of_nat ii) with (Z.of_nat (3 + ii)) by lia.
  by rewrite (byteAt_lookup _ _ _ Hx).
Qed.

Lemma lastState_cons (s : crsfState) (r : rxStep) (rs : list rxStep) :
  lastState s (r :: rs) = lastState (stState r) rs.
Proof. reflexivity. Qed.

Lemma crsfReceiveAll_app (e : crsfEnv) (l1 l2 : list (Z * Z)) :
  forall s,
    crsfReceiveAll e (l1 ++ l2) s
    = crsfReceiveAll e l1 s
      ++ crsfReceiveAll e l2 (lastState s (crsfReceiveAll e l1 s)).
Proof.
  induction l1 as [|[c t] l1 IH]; intros s; [done|].
  cbn [crsfReceiveAll app]. rewrite IH, lastState_cons. done.
Qed.

(** A byte that is stored without completing the frame. *)
Lemma crsfDataReceive_stored (e : crsfEnv) (c t : Z) (s : crsfState) :
  let k := crsfFramePosition s in
  0 <= k -> k + 1 < 256 ->
  k = 0 \/ t <= u32 (crsfFrameStartAtUs s + CRSF_TIME_NEEDED_PER_FRAME_US) ->
  k + 1 < (if k <? 3 then 5 else frameLength (crsfFrame s) + 2) ->
  let r := crsfDataReceive e c t s in
  stOutcome r = ByteStored
  /\ stIndex r = Some k
  /\ crsfFrame (stState r) = storeByte (crsfFrame s) k (u8 c)
  /\ crsfFramePosition (stState r) = k + 1
  /\ crsfFrameStartAtUs (stState r) = (if k =? 0 then t else crsfFrameStartAtUs s)
  /\ crsfFrameDone (stState r) = crsfFrameDone s
  /\ crsfChannelDataFrame (stState r) = crsfChannelDataFrame s
  /\ crsfChannelData (stState r) = crsfChannelData s.
Proof.
  intros k Hk Hk8 Htime Hfull r. subst r. unfold crsfDataReceive.
  set (position := if _ >? _ then 0 else _).
  assert (Hpos : position = k).
  { subst position. destruct (Z.gtb_spec t
      (u32 (crsfFrameStartAtUs s + CRSF_TIME_NEEDED_PER_FRAME_US))); [|done].
    destruct Htime; [done|lia]. }
  rewrite Hpos. unfold CRSF_FRAME_LENGTH_ADDRESS, CRSF_FRAME_LENGTH_FRAMELENGTH.
  replace (frameLength (crsfFrame s) + 1 + 1) with (frameLength (crsfFrame s) + 2) by lia.
  set (full := if k <? 3 then 5 else _) in *.
  destruct (Z.ltb_spec k full); [|lia].
  assert (Hu : u8 (k + 1) = k + 1) by (apply Z.mod_small; lia). rewrite Hu.
  destruct (Z.geb_spec (k + 1) full); [lia|]. simpl. done.
Qed.

(** The byte that completes a frame. *)
Lemma crsfDataReceive_completed (e : crsfEnv) (c t : Z) (s : crsfState) :
  let k := crsfFramePosition s in
  3 <= k -> k + 1 < 256 ->
  t <= u32 (crsfFrameStartAtUs s + CRSF_TIME_NEEDED_PER_FRAME_US) ->
  k + 1 = frameLength (crsfFrame s) + 2 ->
  let r := crsfDataReceive e c t s in
  let f := storeByte (crsfFrame s) k (u8 c) in
  stIndex r = Some k
  /\ crsfFrame (stState r) = f
  /\ crsfFramePosition (stState r) = 0
  /\ crsfChannelData (stState r) = crsfChannelData s
  /\ if crsfFrameCRC f =? byteAt f k
     then stOutcome r = FrameAccepted
          /\ stCalls r = (crsfDispatch e f (k + 1) t s).2
          /\ crsfFrameDone (stState r) = (crsfDispatch e f (k + 1) t s).1.1.1
          /\ crsfChannelDataFrame (stState r) = (crsfDispatch e f (k + 1) t s).1.1.2
          /\ crsfFrameErrorCnt (stState r) = 0
     else stOutcome r = FrameRejected
          /\ fallbackRequests (stCalls r) = length (stCalls r)
          /\ crsfFrameDone (stState r) = crsfFrameDone s
          /\ crsfChannelDataFrame (stState r) = crsfChannelDataFrame s.
Proof.
  intros k Hk Hk8 Htime Hfull r f. subst r. unfold crsfDataReceive.
  destruct (Z.gtb_spec t
      (u32 (crsfFrameStartAtUs s + CRSF_TIME_NEEDED_PER_FRAME_US))); [lia|].
  fold k. unfold CRSF_FRAME_LENGTH_ADDRESS, CRSF_FRAME_LENGTH_FRAMELENGTH.
  replace (frameLength (crsfFrame s) + 1 + 1) with (k + 1) by lia.
  destruct (Z.ltb_spec k 3); [lia|].
  destruct (Z.ltb_spec k (k + 1)); [|lia].
  assert (Hu : u8 (k + 1) = k + 1) by (apply Z.mod_small; lia). rewrite Hu.
  destruct (Z.geb_spec (k + 1) (k + 1)); [|lia].
  replace (k + 1 - 1) with k by lia. fold f.
  destruct (crsfFrameCRC f =? byteAt f k).
  - destruct (crsfDispatch e f (k + 1) t s) as [[[dn sn] st] calls]. simpl.
    rewrite app_nil_r. done.
  - simpl. destruct (_ >=? _); done.
Qed.

Lemma insert_assembled (fr buf : list Z) (k : nat) (c : Z) :
  fr !! k = Some c -> (k < length buf)%nat ->
  <[k := c]> (take k fr ++ drop k buf) = take (S k) fr ++ drop (S k) buf.
Proof.
  intros Hc Hk.
  assert (Hlen : length (take k fr) = k).
  { apply length_take_le. apply lookup_lt_Some in Hc. lia. }
  destruct (lookup_lt_is_Some_2 buf k Hk) as [y Hy].
  rewrite (take_S_r _ _ _ Hc), (drop_S _ _ _ Hy), <- app_assoc.
  rewrite insert_app_r_alt by lia. rewrite Hlen, Nat.sub_diag. reflexivity.
Qed.

Lemma u8_byte (c : Z) : isByte c -> u8 c = c.
Proof. intros H. apply Z.mod_small. exact H. Qed.

Lemma lastState_app (s : crsfState) (l1 l2 : list rxStep) :
  lastState s (l1 ++ l2) = lastState (lastState s l1) l2.
Proof. revert s. induction l1 as [|r l1 IH]; intros s; [done|]. apply IH. Qed.

(** A wire frame at the start of the buffer, as the accessors of the code
    see it. *)
Lemma wireFrame_in_buffer (addr ty : Z) (pl : list Z) (crc : Z) (tail : list Z) :
  let f := wireFrame addr ty pl crc ++ tail in
  deviceAddress f = addr
  /\ frameLength f = Z.of_nat (length pl) + 2
  /\ frameType f = ty
  /\ drop 3 f = pl ++ crc :: tail
  /\ byteAt f (Z.of_nat (length pl) + 3) = crc
  /\ crsfFrameCRC f = crc8Over (ty :: pl).
Proof.
  intros f.
  assert (Hdrop : drop 3 f = pl ++ crc :: tail).
  { subst f. unfold wireFrame. simpl. by rewrite <- app_assoc. }
  assert (Hlen : frameLength f = Z.of_nat (length pl) + 2) by done.
  repeat split; try done.
  - replace (Z.of_nat (length pl) + 3) with (Z.of_nat (3 + length pl)) by lia.
    apply byteAt_lookup. rewrite <- lookup_drop, Hdrop.
    rewrite lookup_app_r by lia. by rewrite Nat.sub_diag.
  - unfold crsfFrameCRC, CRSF_FRAME_LENGTH_TYPE_CRC. rewrite Hlen.
    replace (Z.of_nat (length pl) + 2 - 2) with (Z.of_nat (length pl)) by lia.
    rewrite Nat2Z.id. change 0 with (Z.of_nat 0) at 1.
    rewrite crcLoop_fold.
    + rewrite Nat.add_0_r, Hdrop, take_app_length. reflexivity.
    + subst f. rewrite length_app. unfold wireFrame. simpl. rewrite length_app. simpl. lia.
Qed.

Section WireFrameRun.

Variables (e : crsfEnv) (addr ty : Z) (pl : list Z) (crc : Z).
Variables (t0 : Z) (ts : list Z) (s : crsfState).

Let fr : list Z := wireFrame addr ty pl crc.
Let input : list (Z * Z) := zip fr (t0 :: ts).

Hypothesis Hbytes : Forall isByte fr.
Hypothesis Hsize : (length fr <= 64)%nat.
Hypothesis Hts : length ts = (length pl + 3)%nat.
Hypothesis Ht0 : 0 <= t0.
Hypothesis Hwindow : t0 + CRSF_TIME_NEEDED_PER_FRAME_US < 2 ^ 32.
Hypothesis Hwithin : Forall (fun t => t <= t0 + CRSF_TIME_NEEDED_PER_FRAME_US) ts.
Hypothesis Hpos : crsfFramePosition s = 0.
Hypothesis Hbuf : length (crsfFrame s) = 64%nat.

Lemma wireFrame_length : length fr = (length pl + 4)%nat.
Proof. subst fr. unfold wireFrame. simpl. rewrite length_app. simpl. lia. Qed.

Lemma wireFrame_input (k : nat) (c t : Z) :
  input !! k = Some (c, t) ->
  fr !! k = Some c /\ isByte c
  /\ (k = 0%nat /\ t = t0 \/ (0 < k)%nat /\ t <= t0 + CRSF_TIME_NEEDED_PER_FRAME_US).
Proof.
  intros H. subst input. apply lookup_zip_with_Some in H.
  destruct H as (c' & t' & Heq & Hc & Ht). injection Heq as <- <-.
  split; [done|]. split.
  { eapply Forall_lookup_1; eauto. }
  destruct k as [|k]; [left; simpl in Ht; by injection Ht as <-|right].
  split; [lia|]. simpl in Ht. eapply (Forall_lookup_1 _ _ _ _ Hwithin Ht).
Qed.

Lemma assembled_frameLength (k : nat) (st : crsfState) :
  assembled fr t0 s k st -> (3 <= k)%nat ->
  frameLength (crsfFrame st) = Z.of_nat (length pl) + 2.
Proof.
  intros (_ & Hf & _) Hk. rewrite Hf. unfold frameLength.
  change 1 with (Z.of_nat 1). apply byteAt_lookup.
  rewrite lookup_app_l.
  - rewrite lookup_take_lt by lia. reflexivity.
  - rewrite length_take, wireFrame_length. lia.
Qed.

Lemma assembled_step (k : nat) (st : crsfState) (c t : Z) :
  assembled fr t0 s k st ->
  (k + 1 < length fr)%nat ->
  input !! k = Some (c, t) ->
  let r := crsfDataReceive e c t st in
  stOutcome r = ByteStored /\ stIndex r = Some (Z.of_nat k)
  /\ assembled fr t0 s (S k) (stState r).
Proof.
  intros Hinv Hk Hin r.
  destruct (wireFrame_input k c t Hin) as (Hc & Hcb & Ht).
  pose proof Hinv as (Hp & Hf & Hst & Hd & Hsn & Hch).
  pose proof wireFrame_length as Hn.
  destruct (crsfDataReceive_stored e c t st) as (Ho & Hi & Hf' & Hp' & Hst' & Hd' & Hsn' & Hch').
  - lia.
  - lia.
  - destruct Ht as [[-> _]|[Hk0 Ht]]; [left; lia|right].
    rewrite (Hst Hk0). unfold u32. rewrite Z.mod_small; [done|].
    unfold CRSF_TIME_NEEDED_PER_FRAME_US in *. lia.
  - rewrite Hp. destruct (Z.ltb_spec (Z.of_nat k) 3); [lia|].
    rewrite (assembled_frameLength k st Hinv) by lia. lia.
  - fold r in Ho, Hi, Hf', Hp', Hst', Hd', Hsn', Hch'.
    rewrite Hp in *. split; [done|]. split; [done|].
    unfold assembled. rewrite Hp', Hf', Hd', Hsn', Hch'.
    repeat split; try done; try lia.
    + rewrite storeByte_nat, (u8_byte c Hcb), Hf. apply insert_assembled; [done|lia].
    + intros _. rewrite Hst'. destruct Ht as [[-> ->]|[Hk0 Ht]]; [done|].
      destruct (Z.eqb_spec (Z.of_nat k) 0); [lia|]. by apply Hst.
Qed.

Lemma assembled_prefix (k : nat) :
  (k < length fr)%nat ->
  let steps := crsfReceiveAll e (take k input) s in
  stOutcome <$> steps = replicate k ByteStored
  /\ assembled fr t0 s k (lastState s steps).
Proof.
  induction k as [|k IH]; intros Hk steps.
  - subst steps. simpl. split; [done|]. unfold assembled.
    rewrite take_0, drop_0. repeat split; try done. lia.
  - subst steps. destruct IH as [IHo IHinv]; [lia|].
    assert (Hlk : is_Some (input !! k)).
    { apply lookup_lt_is_Some_2. subst input. rewrite length_zip_with, length_cons, Hts.
      pose proof wireFrame_length as Hn. lia. }
    destruct Hlk as [[c t] Hin].
    rewrite (take_S_r _ _ _ Hin), crsfReceiveAll_app.
    destruct (assembled_step k _ c t IHinv ltac:(lia) Hin) as (Ho & _ & Hinv').
    cbn [crsfReceiveAll]. split.
    + rewrite fmap_app, IHo. cbn [fmap list_fmap]. rewrite Ho.
      replace (S k) with (k + 1)%nat by lia. by rewrite replicate_add.
    + rewrite lastState_app. exact Hinv'.
Qed.

(** A frame received from the idle assembler. *)
Lemma crsfReceiveAll_wireFrame_idle :
  let steps := crsfReceiveAll e input s in
  (forall k : nat, (k < length fr)%nat ->
     stOutcome <$> crsfReceiveAll e (take k input) s = replicate k ByteStored)
  /\ stOutcome <$> steps
     = replicate (length fr - 1) ByteStored
       ++ [if crc8Over (ty :: pl) =? crc then FrameAccepted else FrameRejected]
  /\ (FrameAccepted ∈ (stOutcome <$> steps) <-> crc8Over (ty :: pl) = crc)
  /\ crsfFramePosition (lastState s steps) = 0
  /\ take (length fr) (crsfFrame (lastState s steps)) = fr.
Proof.
  intros steps. pose proof wireFrame_length as Hn.
  split; [intros k Hk; by apply assembled_prefix|].
  set (k := (length fr - 1)%nat).
  destruct (assembled_prefix k ltac:(lia)) as [Ho Hinv].
  assert (Hlk : is_Some (input !! k)).
  { apply lookup_lt_is_Some_2. subst input. rewrite length_zip_with, length_cons, Hts. lia. }
  destruct Hlk as [[c t] Hin].
  assert (Hall : input = take (S k) input).
  { symmetry. apply take_ge. subst input. rewrite length_zip_with, length_cons, Hts. lia. }
  destruct (wireFrame_input k c t Hin) as (Hc & Hcb & Ht).
  set (st := lastState s (crsfReceiveAll e (take k input) s)) in *.
  pose proof Hinv as (Hp & Hf & Hst & Hd & Hsn & Hch).
  assert (Hsteps : steps = crsfReceiveAll e (take k input) s ++ [crsfDataReceive e c t st]).
  { subst steps. rewrite Hall at 1. rewrite (take_S_r _ _ _ Hin), crsfReceiveAll_app.
    reflexivity. }
  assert (Hcrc : c = crc).
  { assert (Hk : k = (3 + length pl)%nat) by lia.
    rewrite Hk in Hc. subst fr. unfold wireFrame in Hc.
    rewrite <- lookup_drop in Hc. simpl in Hc.
    rewrite drop_0 in Hc.
    rewrite lookup_app_r, Nat.sub_diag in Hc by lia. by injection Hc as <-. }
  destruct (crsfDataReceive_completed e c t st) as (_ & Hf' & Hp' & _ & Hend).
  { lia. } { lia. }
  { destruct Ht as [[Hk0 _]|[Hk0 Ht]]; [lia|].
    rewrite (Hst Hk0). unfold u32. rewrite Z.mod_small; [done|].
    unfold CRSF_TIME_NEEDED_PER_FRAME_US in *. lia. }
  { rewrite (assembled_frameLength k st Hinv) by lia. lia. }
  rewrite Hp, storeByte_nat, (u8_byte c Hcb), Hf, insert_assembled in Hend, Hf'
    by (done || lia).
  replace (S k) with (length fr) in Hend, Hf' by lia.
  rewrite firstn_all in Hend, Hf'.
  destruct (wireFrame_in_buffer addr ty pl crc (drop (length fr) (crsfFrame s)))
    as (_ & _ & _ & _ & Hlast & Hfc).
  fold fr in Hlast, Hfc. rewrite Hfc in Hend.
  replace (Z.of_nat k) with (Z.of_nat (length pl) + 3) in Hend by lia.
  rewrite Hlast in Hend.
  assert (Hout : stOutcome (crsfDataReceive e c t st)
                 = if crc8Over (ty :: pl) =? crc then FrameAccepted else FrameRejected).
  { destruct (crc8Over (ty :: pl) =? crc); by destruct Hend as [-> _]. }
  assert (Houts : stOutcome <$> steps
     = replicate k ByteStored
       ++ [if crc8Over (ty :: pl) =? crc then FrameAccepted else FrameRejected]).
  { rewrite Hsteps, fmap_app, Ho. cbn [fmap list_fmap]. by rewrite Hout. }
  split; [exact Houts|]. split.
  - rewrite Houts, elem_of_app, elem_of_replicate, list_elem_of_singleton.
    destruct (Z.eqb_spec (crc8Over (ty :: pl)) crc); intuition congruence.
  - rewrite Hsteps, lastState_app. cbn [lastState]. rewrite Hp', Hf'.
    split; [done|]. by rewrite take_app_length.
Qed.

End WireFrameRun.

(** A byte arriving after the timeout is handled as from position 0. *)
Lemma crsfDataReceive_timeout (e : crsfEnv) (c t : Z) (s : crsfState) :
  u32 (crsfFrameStartAtUs s + CRSF_TIME_NEEDED_PER_FRAME_US) < t ->
  crsfDataReceive e c t s = crsfDataReceive e c t (resetPosition s).
Proof.
  intros Ht. unfold crsfDataReceive. cbn [resetPosition crsfFramePosition
    crsfFrameStartAtUs crsfFrame crsfFrameDone crsfChannelDataFrame crsfChannelData
    lastLinkStatisticsFrameUs crsfFrameErrorCnt].
  destruct (Z.gtb_spec t (u32 (crsfFrameStartAtUs s + CRSF_TIME_NEEDED_PER_FRAME_US)));
    [reflexivity|lia].
Qed.

(** Frame assembly away from the wrap of the timer.  A well-formed frame of
    at most 64 bytes whose first byte arrives more than 1100 microseconds
    before the timer wraps ([t0 + 1100 < 2^32]), delivered to an assembler
    that is idle or timed out, each byte no later than 1100 microseconds
    after the first: every byte but the last is stored without completing a
    frame, also on any proper prefix of the stream; the last byte completes
    the frame, which is accepted (dispatched by type) exactly when the CRC-8
    (DVB-S2) over the type byte and the payload equals that last byte, and
    rejected otherwise; the assembler is then back at position 0. *)
Theorem crsfReceiveAll_wireFrame (e : crsfEnv) (addr ty : Z) (pl : list Z) (crc : Z)
    (t0 : Z) (ts : list Z) (s : crsfState)
    (Hbytes : Forall isByte (wireFrame addr ty pl crc))
    (Hsize : (length (wireFrame addr ty pl crc) <= 64)%nat)
    (Hts : length ts = (length pl + 3)%nat)
    (Ht0 : 0 <= t0)
    (Hwindow : t0 + CRSF_TIME_NEEDED_PER_FRAME_US < 2 ^ 32)
    (Hwithin : Forall (fun t => t <= t0 + CRSF_TIME_NEEDED_PER_FRAME_US) ts)
    (Hsync : crsfFramePosition s = 0
             \/ u32 (crsfFrameStartAtUs s + CRSF_TIME_NEEDED_PER_FRAME_US) < t0)
    (Hbuf : length (crsfFrame s) = 64%nat) :
  let fr := wireFrame addr ty pl crc in
  let input := zip fr (t0 :: ts) in
  let steps := crsfReceiveAll e input s in
  (forall k : nat, (k < length fr)%nat ->
     stOutcome <$> crsfReceiveAll e (take k input) s = replicate k ByteStored)
  /\ stOutcome <$> steps
     = replicate (length fr - 1) ByteStored
       ++ [if crc8Over (ty :: pl) =? crc then FrameAccepted else FrameRejected]
  /\ (FrameAccepted ∈ (stOutcome <$> steps) <-> crc8Over (ty :: pl) = crc)
  /\ crsfFramePosition (lastState s steps) = 0
  /\ take (length fr) (crsfFrame (lastState s steps)) = fr.
Proof.
  intros fr input steps.
  destruct Hsync as [Hpos|Hlate].
  - exact (crsfReceiveAll_wireFrame_idle e addr ty pl crc t0 ts s
             Hbytes Hsize Hts Ht0 Hwindow Hwithin Hpos Hbuf).
  - pose proof (crsfReceiveAll_wireFrame_idle e addr ty pl crc t0 ts (resetPosition s)
                  Hbytes Hsize Hts Ht0 Hwindow Hwithin eq_refl Hbuf) as H.
    cbv zeta in H. fold fr in H. fold input in H.
    assert (Hin : exists rest, input = (addr, t0) :: rest) by (eexists; reflexivity).
    destruct Hin as [rest Hin].
    assert (Hrun : forall l, crsfReceiveAll e ((addr, t0) :: l) s
                             = crsfReceiveAll e ((addr, t0) :: l) (resetPosition s)).
    { intros l. cbn [crsfReceiveAll]. by rewrite crsfDataReceive_timeout. }
    assert (Hsteps : steps = crsfReceiveAll e input (resetPosition s)).
    { subst steps. rewrite Hin. apply Hrun. }
    assert (Hlast : lastState s steps = lastState (resetPosition s) steps).
    { rewrite Hsteps, Hin. reflexivity. }
    rewrite Hlast, Hsteps.
    destruct H as (Hpre & Hrest). split; [|exact Hrest].
    intros [|k] Hk; [reflexivity|].
    rewrite <- (Hpre (S k) Hk), Hin. cbn [take]. apply f_equal, Hrun.
Qed.

Lemma crsfReceiveAll_wireFrame_witness :
  stOutcome <$> crsfReceiveAll crsfEnvDefault
                  (zip subsetExampleFrame (0 :: [1; 2; 3; 4; 5; 6; 7])) (crsfRxInit 1500)
  = replicate 7 ByteStored ++ [FrameAccepted].
Proof.
  pose proof (crsfReceiveAll_wireFrame crsfEnvDefault
                CRSF_ADDRESS_FLIGHT_CONTROLLER CRSF_FRAMETYPE_SUBSET_RC_CHANNELS_PACKED
                [132; 12; 208; 7]
                (crc8Over [CRSF_FRAMETYPE_SUBSET_RC_CHANNELS_PACKED; 132; 12; 208; 7])
                0 [1; 2; 3; 4; 5; 6; 7] (crsfRxInit 1500)) as H.
  apply H.
  - vm_compute. repeat (constructor; [split; congruence|]). constructor.
  - vm_compute. lia.
  - reflexivity.
  - lia.
  - vm_compute. reflexivity.
  - repeat (constructor; [vm_compute; congruence|]). constructor.
  - left. reflexivity.
  - reflexivity.
Defined.

(** C2, the code at a failing input: [subsetExampleFrame], well formed and
    with the right checksum, is delivered a byte per microsecond.  Begun at
    time 0 it is stored at the indices 0..7, completed by its last byte and
    accepted.  Begun 100 microseconds before the 32-bit timer wraps, the sum
    [crsfFrameStartAtUs + 1100] has wrapped to 1000 and every byte, one
    microsecond after the one before, counts as later than the time needed
    for a frame: each is stored at index 0, the frame is never completed and
    the latch stays clear. *)
Theorem crsfReceiveAll_wireFrame_lost_at_rollover :
  let away := crsfReceiveAll crsfEnvDefault (subsetExampleStream 0) (crsfRxInit 1500) in
  let near := crsfReceiveAll crsfEnvDefault (subsetExampleStream 4294967196)
                (crsfRxInit 1500) in
  stOutcome <$> away = replicate 7 ByteStored ++ [FrameAccepted]
  /\ stIndex <$> away = Some <$> seqZ 0 8
  /\ crsfFrameDone (lastState (crsfRxInit 1500) away) = true
  /\ stOutcome <$> near = replicate 8 ByteStored
  /\ stIndex <$> near = replicate 8 (Some 0)
  /\ crsfFramePosition (lastState (crsfRxInit 1500) near) = 1
  /\ crsfFrameDone (lastState (crsfRxInit 1500) near) = false.
Proof. vm_compute. repeat split; reflexivity. Qed.

(** ** Command frames *)

(** What is known of a call that accepted a frame. *)
Lemma crsfDataReceive_accepted_inv (e : crsfEnv) (c t : Z) (s : crsfState) :
  0 <= crsfFramePosition s < 256 ->
  stOutcome (crsfDataReceive e c t s) = FrameAccepted ->
  frameLength (crsfFrame (stState (crsfDataReceive e c t s))) + 2 <= CRSF_FRAME_SIZE_MAX ->
  3 <= crsfFramePosition s
  /\ t <= u32 (crsfFrameStartAtUs s + CRSF_TIME_NEEDED_PER_FRAME_US)
  /\ crsfFramePosition s + 1 = frameLength (crsfFrame s) + 2
  /\ crsfFramePosition s < CRSF_FRAME_SIZE_MAX.
Proof.
  intros Hk. unfold crsfDataReceive, CRSF_FRAME_SIZE_MAX.
  set (position := if _ >? _ then 0 else _).
  assert (Hp : 0 <= position < 256) by (subst position; destruct (_ >? _); lia).
  unfold CRSF_FRAME_LENGTH_ADDRESS, CRSF_FRAME_LENGTH_FRAMELENGTH.
  destruct (Z.ltb_spec position 3) as [Hlt|Hge].
  - destruct (Z.ltb_spec position 5); [|lia].
    assert (Hu : u8 (position + 1) = position + 1) by (apply Z.mod_small; lia).
    rewrite Hu. destruct (Z.geb_spec (position + 1) 5); [lia|]. simpl. discriminate.
  - assert (Hpos : position = crsfFramePosition s
                   /\ t <= u32 (crsfFrameStartAtUs s + CRSF_TIME_NEEDED_PER_FRAME_US)).
    { subst position. destruct (Z.gtb_spec t
        (u32 (crsfFrameStartAtUs s + CRSF_TIME_NEEDED_PER_FRAME_US))); [lia|done]. }
    destruct Hpos as [Hpos Ht]. rewrite Hpos in *. clear position Hpos.
    destruct (Z.ltb_spec (crsfFramePosition s) (frameLength (crsfFrame s) + 1 + 1));
      [|simpl; discriminate].
    assert (Hfl : frameLength (storeByte (crsfFrame s) (crsfFramePosition s) (u8 c))
                  = frameLength (crsfFrame s)).
    { unfold frameLength. apply byteAt_storeByte_ne; lia. }
    destruct (u8 (crsfFramePosition s + 1) >=? _) eqn:Hdone; [|simpl; discriminate].
    destruct (_ =? _); [|simpl; discriminate].
    destruct (crsfDispatch _ _ _ _ _) as [[[dn sn] st] calls]. simpl.
    rewrite Hfl. intros _ Hsize.
    assert (Hu : u8 (crsfFramePosition s + 1) = crsfFramePosition s + 1)
      by (apply Z.mod_small; lia).
    rewrite Hu in Hdone. apply Z.geb_le in Hdone. lia.
Qed.

(** The command checksum of the code is the CRC-8 with polynomial 0xBA over
    the type byte and the payload without the last two bytes of the frame. *)
Lemma crsfFrameCmdCRC_fold (f : list Z) :
  (3 <= length f)%nat -> frameLength f <= Z.of_nat (length f) ->
  crsfFrameCmdCRC f
  = cmdCrc8Over (frameType f :: take (Z.to_nat (frameLength f - 3)) (drop 3 f)).
Proof.
  intros H3 Hlen. unfold crsfFrameCmdCRC, CRSF_FRAME_LENGTH_TYPE_CRC.
  replace (frameLength f - 2 - 1) with (frameLength f - 3) by lia.
  change 0 with (Z.of_nat 0) at 1. rewrite crcLoop_fold by lia. reflexivity.
Qed.

(** C9: when a call accepts a command frame (its frame CRC matched) that
    fits the buffer, the command processor is called, with the payload
    after the two address bytes, exactly when the frame's second-to-last
    byte equals the CRC-8 with polynomial 0xBA over the type byte and the
    payload without the last two bytes of the frame and the byte at index 3
    is the flight-controller address; otherwise no call is made; either way
    the error counter is 0 and latch, snapshot and channels are untouched. *)
Theorem crsfDataReceive_command (e : crsfEnv) (c t : Z) (s : crsfState)
    (Hpos : 0 <= crsfFramePosition s < 256)
    (Hbuf : length (crsfFrame s) = 64%nat)
    (Hacc : stOutcome (crsfDataReceive e c t s) = FrameAccepted)
    (Hty : frameType (crsfFrame (stState (crsfDataReceive e c t s)))
           = CRSF_FRAMETYPE_COMMAND)
    (Hsize : frameLength (crsfFrame (stState (crsfDataReceive e c t s))) + 2
             <= CRSF_FRAME_SIZE_MAX) :
  let r := crsfDataReceive e c t s in
  let f := crsfFrame (stState r) in
  let inner :=
    cmdCrc8Over (frameType f :: take (Z.to_nat (frameLength f - 3)) (drop 3 f)) in
  stCalls r
  = (if (byteAt f (frameLength f + 2 - 2) =? inner)
        && (byteAt f 3 =? CRSF_ADDRESS_FLIGHT_CONTROLLER)
     then [crsfProcessCommand (drop 5 f)] else [])
  /\ crsfFrameErrorCnt (stState r) = 0
  /\ crsfFrameDone (stState r) = crsfFrameDone s
  /\ crsfChannelDataFrame (stState r) = crsfChannelDataFrame s
  /\ crsfChannelData (stState r) = crsfChannelData s.
Proof.
  intros r f inner.
  destruct (crsfDataReceive_accepted_inv e c t s Hpos Hacc Hsize)
    as (Hk & Ht & Hfull & Hk64).
  unfold CRSF_FRAME_SIZE_MAX in Hk64.
  destruct (crsfDataReceive_completed e c t s Hk ltac:(lia) Ht Hfull)
    as (_ & Hf & _ & Hch & Hend).
  fold r in Hf, Hch, Hend, Hacc, Hty, Hsize. fold f in Hf, Hty, Hsize.
  rewrite <- Hf in Hend.
  destruct (crsfFrameCRC f =? _).
  2:{ destruct Hend as [Hrej _]. rewrite Hacc in Hrej. discriminate. }
  destruct Hend as (_ & Hcalls & Hdone & Hsnap & Hcnt).
  assert (Hfl : frameLength f = frameLength (crsfFrame s)).
  { rewrite Hf. unfold frameLength. apply byteAt_storeByte_ne; lia. }
  assert (Hcmd : crsfFrameCmdCRC f = inner).
  { assert (Hlenf : length f = 64%nat) by (by rewrite Hf, length_storeByte).
    apply crsfFrameCmdCRC_fold; rewrite Hlenf;
      unfold CRSF_FRAME_SIZE_MAX in Hsize; lia. }
  unfold crsfDispatch in Hcalls, Hdone, Hsnap. rewrite Hty in Hcalls, Hdone, Hsnap.
  cbn [Z.eqb CRSF_FRAMETYPE_COMMAND CRSF_FRAMETYPE_RC_CHANNELS_PACKED
       CRSF_FRAMETYPE_SUBSET_RC_CHANNELS_PACKED CRSF_FRAMETYPE_MSP_REQ
       CRSF_FRAMETYPE_MSP_WRITE CRSF_FRAMETYPE_DEVICE_PING
       CRSF_FRAMETYPE_DISPLAYPORT_CMD CRSF_FRAMETYPE_LINK_STATISTICS
       CRSF_FRAMETYPE_LINK_STATISTICS_RX CRSF_FRAMETYPE_LINK_STATISTICS_TX
       Pos.eqb orb] in Hcalls, Hdone, Hsnap.
  rewrite Hcmd in Hcalls, Hdone, Hsnap.
  replace (crsfFramePosition s + 1 - 2) with (frameLength f + 2 - 2)
    in Hcalls, Hdone, Hsnap by lia.
  rewrite Hcalls, Hdone, Hsnap, Hcnt, Hch.
  destruct (_ && _); done.
Qed.

Lemma crsfDataReceive_command_witness :
  let r := crsfDataReceive crsfEnvDefault 33 9 commandExampleState in
  stCalls r = [crsfProcessCommand (drop 5 (crsfFrame (stState r)))]
  /\ take 10 (crsfFrame (stState r)) = commandExampleFrame.
Proof.
  split; [|reflexivity].
  pose proof (crsfDataReceive_command crsfEnvDefault 33 9 commandExampleState) as H.
  apply H.
  - vm_compute. split; congruence.
  - reflexivity.
  - reflexivity.
  - reflexivity.
  - vm_compute. congruence.
Defined.

(** ** Subset unpacking *)

Lemma byteAt_byte (f : list Z) (i : Z) : Forall isByte f -> 0 <= byteAt f i < 256.
Proof.
  intros Hf. unfold byteAt. destruct (i <? 0); [lia|].
  destruct (f !! Z.to_nat i) as [x|] eqn:Hx; simpl; [|lia].
  exact (Forall_lookup_1 _ _ _ _ Hf Hx).
Qed.

Lemma lor_shiftl_add (v x b : Z) :
  0 <= b -> 0 <= v < 2 ^ b -> Z.lor v (Z.shiftl x b) = v + x * 2 ^ b.
Proof.
  intros Hb Hv. rewrite <- Z.shiftl_mul_pow2 by lia.
  assert (Hland : Z.land v (Z.shiftl x b) = 0).
  { apply Z.bits_inj'. intros i Hi. rewrite Z.land_spec, Z.bits_0.
    destruct (Z.lt_ge_cases i b) as [Hlt|Hge].
    - rewrite Z.shiftl_spec_low by lia. apply andb_false_r.
    - rewrite <- (Z.mod_small v (2 ^ b)) by lia.
      rewrite Z.mod_pow2_bits_high by lia. reflexivity. }
  rewrite Z.add_nocarry_lxor by exact Hland. symmetry. by apply Z.lxor_lor.
Qed.

Section PayloadBits.

Variable f : list Z.
Hypothesis Hf : Forall isByte f.

Lemma payloadBits_split (a b : nat) :
  forall i : Z,
    payloadBits f (a + b) i
    = payloadBits f a i + 2 ^ (8 * Z.of_nat a) * payloadBits f b (i + Z.of_nat a).
Proof.
  induction a as [|a IH]; intros i.
  - simpl. rewrite Z.add_0_r. lia.
  - cbn [Nat.add payloadBits]. rewrite IH.
    replace (i + 1 + Z.of_nat a) with (i + Z.of_nat (S a)) by lia.
    replace (8 * Z.of_nat (S a)) with (8 + 8 * Z.of_nat a) by lia.
    rewrite Z.pow_add_r by lia. change (2 ^ 8) with 256. ring.
Qed.

Lemma payloadBits_range (k : nat) :
  forall i : Z, 0 <= payloadBits f k i < 2 ^ (8 * Z.of_nat k).
Proof.
  induction k as [|k IH]; intros i; [simpl; lia|].
  cbn [payloadBits]. specialize (IH (i + 1)).
  pose proof (byteAt_byte f (3 + i) Hf) as Hb. fold (payload f i) in Hb.
  replace (8 * Z.of_nat (S k)) with (8 + 8 * Z.of_nat k) by lia.
  rewrite Z.pow_add_r by lia. change (2 ^ 8) with 256. nia.
Qed.

(** Reading one more byte appends eight bits above those already merged. *)
Lemma payloadBits_next (k : nat) (m : Z) :
  0 <= m <= 8 * Z.of_nat k ->
  payloadBits f (S k) 0 / 2 ^ m
  = payloadBits f k 0 / 2 ^ m + payload f (Z.of_nat k) * 2 ^ (8 * Z.of_nat k - m).
Proof.
  intros Hm. replace (S k) with (k + 1)%nat by lia.
  rewrite payloadBits_split. cbn [payloadBits]. rewrite Z.add_0_l, Z.mul_0_r, Z.add_0_r.
  replace (8 * Z.of_nat k) with ((8 * Z.of_nat k - m) + m) at 1 by lia.
  rewrite Z.pow_add_r by lia.
  replace (2 ^ (8 * Z.of_nat k - m) * 2 ^ m * payload f (Z.of_nat k))
    with (payload f (Z.of_nat k) * 2 ^ (8 * Z.of_nat k - m) * 2 ^ m) by ring.
  rewrite Z.div_add by lia. reflexivity.
Qed.

Lemma payloadBits_shift_range (k : nat) (m : Z) :
  0 <= m <= 8 * Z.of_nat k ->
  0 <= payloadBits f k 0 / 2 ^ m < 2 ^ (8 * Z.of_nat k - m).
Proof.
  intros Hm. pose proof (payloadBits_range k 0) as Hr. split.
  - apply Z.div_pos; lia.
  - apply Z.div_lt_upper_bound; [lia|].
    rewrite <- Z.pow_add_r by lia. replace (m + (8 * Z.of_nat k - m)) with (8 * Z.of_nat k) by lia.
    lia.
Qed.

(** The eleven bits at offset [m] do not depend on bytes read later. *)
Lemma payloadBits_field (k p : nat) (m : Z) :
  (k <= p)%nat -> 0 <= m -> m + 11 <= 8 * Z.of_nat k ->
  (payloadBits f p 0 / 2 ^ m) mod 2 ^ 11 = (payloadBits f k 0 / 2 ^ m) mod 2 ^ 11.
Proof.
  intros Hkp Hm Hk. replace p with (k + (p - k))%nat by lia.
  rewrite payloadBits_split. set (h := payloadBits f (p - k) _).
  assert (Hpow : 2 ^ (8 * Z.of_nat k)
                 = 2 ^ (8 * Z.of_nat k - m - 11) * 2 ^ 11 * 2 ^ m).
  { rewrite <- !Z.pow_add_r by lia. f_equal. lia. }
  rewrite Hpow.
  replace (2 ^ (8 * Z.of_nat k - m - 11) * 2 ^ 11 * 2 ^ m * h)
    with (2 ^ (8 * Z.of_nat k - m - 11) * h * 2 ^ 11 * 2 ^ m) by ring.
  rewrite Z.div_add by lia.
  apply Z_mod_plus_full.
Qed.

End PayloadBits.

Section SubsetUnpack.

Variable f : list Z.
Hypothesis Hf : Forall isByte f.

Lemma payload_byte (i : Z) : 0 <= payload f i < 256.
Proof. apply byteAt_byte, Hf. Qed.

Lemma startChannel_range : 0 <= Z.land (payload f 0) 0x1F < 32.
Proof.
  pose proof (payload_byte 0).
  change 0x1F with (Z.ones 5). rewrite Z.land_ones by lia.
  apply Z.mod_pos_bound. lia.
Qed.

Lemma subsetReaderAt_started (n : Z) (k : nat) (a : subsetReader) :
  subsetReaderAt f n k a -> 0 < bitsMerged a -> (0 < k)%nat.
Proof. intros [_ [(_ & _ & ->)|(Hk0 & _)]] Hb; [simpl in Hb; lia|done]. Qed.

(** One pass of the inner loop keeps the reader in step with the payload. *)
Lemma subsetFill_reads (fuel : nat) :
  forall (a : subsetReader) (k : nat) (n : Z),
    0 <= n ->
    subsetReaderAt f n k a ->
    0 <= bitsMerged a < 19 ->
    11 - bitsMerged a <= 3 * Z.of_nat fuel ->
    (k + fuel <= 255)%nat ->
    exists (a' : subsetReader) (k' : nat),
      subsetFill fuel f a = Some a'
      /\ subsetReaderAt f n k' a'
      /\ (0 < k')%nat /\ (k <= k')%nat
      /\ 11 <= bitsMerged a' < 19.
Proof.
  induction fuel as [|fuel IH]; intros a k n Hn Hat Hb Hfuel Hk.
  - exists a, k. simpl. unfold CRSF_SUBSET_RC_CHANNELS_PACKED_RESOLUTION.
    destruct (Z.ltb_spec (bitsMerged a) 11); [lia|].
    pose proof (subsetReaderAt_started n k a Hat ltac:(lia)).
    split; [done|]. split; [done|]. lia.
  - cbn [subsetFill]. unfold CRSF_SUBSET_RC_CHANNELS_PACKED_RESOLUTION.
    destruct (Z.ltb_spec (bitsMerged a) 11) as [Hlt|Hge].
    2:{ exists a, k. pose proof (subsetReaderAt_started n k a Hat ltac:(lia)).
        split; [done|]. split; [done|]. lia. }
    destruct Hat as [Hidx [(-> & -> & ->)|(Hk0 & Hsc & Hbm & Hrv)]].
    + (* first byte: the starting channel *)
      cbn [startChannel subsetReaderInit readByteIndex bitsMerged readValue].
      change (255 =? 255) with true. cbv iota.
      set (a1 := {| readByteIndex := _ |}).
      assert (Hat1 : subsetReaderAt f 0 1 a1).
      { unfold subsetReaderAt. subst a1.
        cbn [readByteIndex startChannel bitsMerged readValue].
        split; [done|]. right. split; [lia|]. split; [done|]. split; [done|].
        cbn [payloadBits]. rewrite Z.mul_0_r, Z.add_0_r.
        unfold CRSF_SUBSET_RC_CHANNELS_PACKED_STARTING_CHANNEL_RESOLUTION.
        pose proof (payload_byte 0) as Hp.
        rewrite Z.shiftl_0_r, Z.lor_0_l, Z.shiftr_div_pow2 by lia.
        unfold u32. rewrite Z.mod_small; [reflexivity|].
        split; [apply Z.div_pos; lia|].
        apply Z.div_lt_upper_bound; lia. }
      assert (Hb1 : bitsMerged a1 = 3) by reflexivity.
      cbn [bitsMerged subsetReaderInit] in Hfuel.
      destruct (IH a1 1%nat 0 Hn Hat1 ltac:(lia) ltac:(lia) ltac:(lia))
        as (a' & k' & Hfill & Hat' & Hk' & Hkk' & Hb').
      exists a', k'. split; [done|]. split; [done|]. lia.
    + (* a further byte *)
      pose proof startChannel_range as Hsr.
      destruct (Z.eqb_spec (startChannel a) 255) as [Heq|_]; [lia|].
      assert (Hm : 0 <= 5 + 11 * n <= 8 * Z.of_nat k) by lia.
      pose proof (payloadBits_shift_range f Hf k (5 + 11 * n) Hm) as Hvr.
      replace (8 * Z.of_nat k - (5 + 11 * n)) with (8 * Z.of_nat k - 5 - 11 * n)
        in Hvr by lia.
      pose proof (payload_byte (Z.of_nat k)) as Hp.
      set (a1 := {| readByteIndex := _ |}).
      assert (Hb1 : bitsMerged a1 = bitsMerged a + 8).
      { subst a1. cbn [bitsMerged]. unfold u8. apply Z.mod_small. lia. }
      assert (Hat1 : subsetReaderAt f n (S k) a1).
      { unfold subsetReaderAt. rewrite Hb1. subst a1.
        cbn [readByteIndex startChannel readValue].
        rewrite Hidx. unfold u8. rewrite !Z.mod_small by lia.
        split; [lia|]. right. split; [lia|]. split; [done|]. split; [lia|].
        rewrite Hrv, Hbm.
        assert (Hsmall : 0 <= Z.shiftl (payload f (Z.of_nat k)) (8 * Z.of_nat k - 5 - 11 * n)
                         < 2 ^ 19).
        { rewrite Z.shiftl_mul_pow2 by lia. split; [apply Z.mul_nonneg_nonneg; lia|].
          assert (2 ^ (8 * Z.of_nat k - 5 - 11 * n) <= 2 ^ 10)
            by (apply Z.pow_le_mono_r; lia).
          assert (0 < 2 ^ (8 * Z.of_nat k - 5 - 11 * n)) by (apply Z.pow_pos_nonneg; lia).
          change (2 ^ 19) with (512 * 2 ^ 10). nia. }
        unfold u32. rewrite (Z.mod_small (Z.shiftl _ _)) by lia.
        rewrite lor_shiftl_add by lia.
        rewrite (payloadBits_next f k (5 + 11 * n)) by lia.
        replace (8 * Z.of_nat k - (5 + 11 * n)) with (8 * Z.of_nat k - 5 - 11 * n) by lia.
        reflexivity. }
      destruct (IH a1 (S k) n Hn Hat1 ltac:(lia) ltac:(lia) ltac:(lia))
        as (a' & k' & Hfill & Hat' & Hk' & Hkk' & Hb').
      exists a', k'. split; [done|]. split; [done|]. lia.
Qed.

End SubsetUnpack.

Lemma subsetStores_cons (f : list Z) (len : nat) (n : Z) (count : nat) :
  subsetStores f len n (Z.of_nat (S count))
  = (Z.land (payload f 0) 0x1F + n, subsetValue f len n)
    :: subsetStores f len (n + 1) (Z.of_nat count).
Proof.
  unfold subsetStores. rewrite seqZ_cons by lia. cbn [fmap list_fmap].
  replace (Z.pred (Z.of_nat (S count))) with (Z.of_nat count) by lia.
  replace (Z.succ n) with (n + 1) by lia. reflexivity.
Qed.

Section SubsetLoop.

Variable f : list Z.
Hypothesis Hf : Forall isByte f.
Variable len : nat.
Hypothesis Hlen : (len <= 250)%nat.

Lemma subsetUnpack_stores (count : nat) :
  forall (n : Z) (a : subsetReader) (k : nat) (d : list Z) (stores : list (Z * Z)),
    0 <= n ->
    subsetReaderAt f n k a ->
    0 <= bitsMerged a < 11 ->
    (k <= len)%nat ->
    ((0 < count)%nat -> 11 * (n + Z.of_nat count) + 5 <= 8 * Z.of_nat len) ->
    subsetUnpack count f n a d stores
    = Some (applyStores d (subsetStores f len n (Z.of_nat count)),
            stores ++ subsetStores f len n (Z.of_nat count)).
Proof.
  induction count as [|count IH]; intros n a k d stores Hn Hat Hb Hk Hfit.
  - cbn. by rewrite app_nil_r.
  - specialize (Hfit ltac:(lia)).
    cbn [subsetUnpack].
    destruct (subsetFill_reads f Hf subsetFillFuel a k n Hn Hat ltac:(lia)
                ltac:(unfold subsetFillFuel; lia) ltac:(unfold subsetFillFuel; lia))
      as (a' & k' & -> & Hat' & Hk' & Hkk' & Hb').
    destruct Hat' as [Hidx' [(-> & _)|(_ & Hsc' & Hbm' & Hrv')]]; [lia|].
    assert (Hk'len : (k' <= len)%nat) by lia.
    assert (Hval : Z.land (readValue a') CRSF_SUBSET_RC_CHANNELS_PACKED_MASK
                   = subsetValue f len n).
    { unfold subsetValue, CRSF_SUBSET_RC_CHANNELS_PACKED_MASK.
      change 0x07FF with (Z.ones 11). rewrite !Z.land_ones by lia.
      rewrite Z.shiftr_div_pow2 by lia. rewrite Hrv'.
      symmetry. apply payloadBits_field; lia. }
    rewrite Hval, Hsc'. rewrite subsetStores_cons. cbn [applyStores].
    rewrite (IH (u8 (n + 1)) _ k').
    + unfold u8. rewrite Z.mod_small by lia.
      rewrite <- app_assoc. reflexivity.
    + unfold u8. apply Z.mod_pos_bound. lia.
    + unfold subsetReaderAt. cbn [readByteIndex startChannel bitsMerged readValue].
      split; [done|]. right. split; [done|]. split; [done|].
      unfold u8, CRSF_SUBSET_RC_CHANNELS_PACKED_RESOLUTION.
      rewrite !Z.mod_small by lia. split; [lia|].
      rewrite Z.shiftr_div_pow2, Hrv' by lia.
      rewrite Z.div_div by lia. rewrite <- Z.pow_add_r by lia.
      f_equal. f_equal. lia.
    + cbn [bitsMerged]. unfold u8, CRSF_SUBSET_RC_CHANNELS_PACKED_RESOLUTION.
      rewrite Z.mod_small by lia. lia.
    + exact Hk'len.
    + intros Hc. unfold u8. rewrite Z.mod_small by lia. lia.
Qed.

End SubsetLoop.

Lemma length_storeChannel (d : list Z) (i v : Z) :
  length (storeChannel d i v) = length d.
Proof. unfold storeChannel. destruct (i <? 0); [done|]. apply length_insert. Qed.

Lemma storeChannel_lookup_ne (d : list Z) (j v : Z) (i : nat) :
  j <> Z.of_nat i -> storeChannel d j v !! i = d !! i.
Proof.
  intros Hne. unfold storeChannel. destruct (Z.ltb_spec j 0); [done|].
  apply list_lookup_insert_ne. lia.
Qed.

Lemma storeChannel_lookup_eq (d : list Z) (j v : Z) :
  0 <= j -> (Z.to_nat j < length d)%nat -> storeChannel d j v !! Z.to_nat j = Some v.
Proof.
  intros Hj Hlt. unfold storeChannel. destruct (Z.ltb_spec j 0); [lia|].
  by apply list_lookup_insert_eq.
Qed.

Lemma applyStores_lookup_other (stores : list (Z * Z)) :
  forall (d : list Z) (i : nat),
    (forall j v, (j, v) ∈ stores -> j <> Z.of_nat i) ->
    applyStores d stores !! i = d !! i.
Proof.
  induction stores as [|[j v] stores IH]; intros d i Hne; [done|].
  cbn [applyStores]. rewrite IH.
  - apply storeChannel_lookup_ne. apply (Hne j v). left.
  - intros j' v' Hin. apply (Hne j' v'). by right.
Qed.

Lemma elem_of_subsetStores (f : list Z) (len : nat) (n count j v : Z) :
  (j, v) ∈ subsetStores f len n count ->
  exists m, n <= m < n + count /\ j = Z.land (payload f 0) 0x1F + m
            /\ v = subsetValue f len m.
Proof.
  unfold subsetStores. intros Hin. apply list_elem_of_fmap in Hin.
  destruct Hin as (m & Heq & Hm). injection Heq as -> ->.
  apply elem_of_seqZ in Hm. exists m. split; [lia|done].
Qed.

Lemma subsetStores_lookup (f : list Z) (len : nat) (count : nat) :
  forall (n : Z) (d : list Z) (m : Z),
    0 <= Z.land (payload f 0) 0x1F + n ->
    n <= m < n + Z.of_nat count ->
    (Z.to_nat (Z.land (payload f 0) 0x1F + m) < length d)%nat ->
    applyStores d (subsetStores f len n (Z.of_nat count))
      !! Z.to_nat (Z.land (payload f 0) 0x1F + m)
    = Some (subsetValue f len m).
Proof.
  induction count as [|count IH]; intros n d m Hstart Hm Hlt; [lia|].
  rewrite subsetStores_cons. cbn [applyStores].
  destruct (Z.eq_dec m n) as [->|Hne].
  - rewrite applyStores_lookup_other.
    + apply storeChannel_lookup_eq; [lia|done].
    + intros j v Hin. apply elem_of_subsetStores in Hin.
      destruct Hin as (m' & Hm' & -> & _). lia.
  - apply IH; [lia|lia|]. by rewrite length_storeChannel.
Qed.

Lemma subsetValue_range (f : list Z) (len : nat) (n : Z) :
  0 <= subsetValue f len n < 2048.
Proof.
  unfold subsetValue. change 0x07FF with (Z.ones 11). rewrite Z.land_ones by lia.
  apply Z.mod_pos_bound. lia.
Qed.

(** C5: the poll of a latched subset frame returns "complete" after storing
    [numOfChannels = (payloadBytes * 8 - 5) / 11] eleven-bit values, value [n]
    (the bits from offset [5 + 11 * n] of the payload) to channel
    [startChannel + n] and nothing else, so every other channel keeps its
    value; with starting channel 4 and the two values 100 and 2000 the stores
    are channel 4 := 100 and channel 5 := 2000. *)
Theorem crsfFrameStatus_subset (s : crsfState)
    (Hdone : crsfFrameDone s = true)
    (Hty : frameType (crsfChannelDataFrame s) = CRSF_FRAMETYPE_SUBSET_RC_CHANNELS_PACKED)
    (Hbytes : Forall isByte (crsfChannelDataFrame s))
    (Hsz : length (crsfChannelDataFrame s) = 64%nat)
    (Hlen : 2 <= frameLength (crsfChannelDataFrame s) <= 62) :
  let f := crsfChannelDataFrame s in
  let payloadBytes := frameLength f - CRSF_FRAME_LENGTH_TYPE_CRC in
  let num := Z.quot (payloadBytes * 8 - 5) 11 in
  let start := Z.land (payload f 0) 0x1F in
  let value := subsetValue f (Z.to_nat payloadBytes) in
  exists r,
    crsfFrameStatus s = Some r
    /\ pollStatus r = RX_FRAME_COMPLETE
    /\ pollStores r = (fun n => (start + n, value n)) <$> seqZ 0 num
    /\ crsfChannelData (pollState r) = applyStores (crsfChannelData s) (pollStores r)
    /\ (forall n, 0 <= value n < 2048)
    /\ (forall i : nat, Z.of_nat i < start \/ start + num <= Z.of_nat i ->
          crsfChannelData (pollState r) !! i = crsfChannelData s !! i)
    /\ (forall n, 0 <= n < num ->
          (Z.to_nat (start + n) < length (crsfChannelData s))%nat ->
          crsfChannelData (pollState r) !! Z.to_nat (start + n) = Some (value n))
    /\ (start = 4 -> num = 2 -> value 0 = 100 -> value 1 = 2000 ->
          pollStores r = [(4, 100); (5, 2000)]
          /\ crsfChannelData (pollState r)
             = <[5%nat := 2000]> (<[4%nat := 100]> (crsfChannelData s))).
Proof.
  intros f payloadBytes num start value.
  unfold CRSF_FRAME_LENGTH_TYPE_CRC in payloadBytes.
  assert (Hp : 0 <= payloadBytes <= 60) by (subst payloadBytes f; lia).
  assert (Hnum : 0 <= num <= 43 /\ (0 < num -> 11 * num + 5 <= 8 * payloadBytes)).
  { subst num. Z.quot_rem_to_equations. lia. }
  assert (Hnc : numOfChannels f = num).
  { unfold numOfChannels, CRSF_FRAME_LENGTH_TYPE_CRC, u8. fold payloadBytes.
    apply Z.mod_small. fold num. lia. }
  pose proof (startChannel_range f Hbytes) as Hstart. fold start in Hstart.
  assert (Hrun : subsetUnpack (Z.to_nat num) f 0 subsetReaderInit (crsfChannelData s) []
                 = Some (applyStores (crsfChannelData s)
                           (subsetStores f (Z.to_nat payloadBytes) 0 num),
                         subsetStores f (Z.to_nat payloadBytes) 0 num)).
  { rewrite <- (Z2Nat.id num) at 2 3 by lia.
    apply (subsetUnpack_stores f Hbytes (Z.to_nat payloadBytes) ltac:(lia)
             (Z.to_nat num) 0 subsetReaderInit 0%nat); try lia.
    - split; [done|]. left. done.
    - simpl. lia. }
  unfold crsfFrameStatus. rewrite Hdone, Hty. fold f.
  change (CRSF_FRAMETYPE_SUBSET_RC_CHANNELS_PACKED =? CRSF_FRAMETYPE_RC_CHANNELS_PACKED)
    with false. cbv iota.
  rewrite Hnc, Hrun. eexists. split; [reflexivity|]. cbn [pollStatus pollStores pollState].
  split; [done|]. split; [done|]. split; [done|]. split; [apply subsetValue_range|].
  cbn [withChannels crsfChannelData].
  split; [|split].
  - intros i Hi. apply applyStores_lookup_other. intros j v Hin.
    apply elem_of_subsetStores in Hin. destruct Hin as (m & Hm & -> & _).
    fold start. lia.
  - intros n Hn Hlt. rewrite <- (Z2Nat.id num) by lia.
    apply subsetStores_lookup; fold start; [lia|lia|done].
  - intros Hs Hn H0 H1. unfold subsetStores. fold start value. rewrite Hs, Hn.
    cbn [seqZ]. change (seqZ 0 2) with [0; 1]. cbn [fmap list_fmap]. rewrite H0, H1.
    split; reflexivity.
Qed.

Lemma crsfFrameStatus_subset_witness :
  exists r,
    crsfFrameStatus subsetExampleState = Some r
    /\ pollStores r = [(4, 100); (5, 2000)]
    /\ crsfChannelData (pollState r)
       = [992; 992; 992; 992; 100; 2000; 992; 992; 992; 992; 992; 992; 992; 992; 992; 992].
Proof.
  destruct (crsfFrameStatus_subset subsetExampleState) as (r & Hr & _ & _ & _ & _ & _ & _ & Hex).
  - reflexivity.
  - reflexivity.
  - vm_compute. repeat (constructor; [split; congruence|]). constructor.
  - reflexivity.
  - vm_compute. split; congruence.
  - exists r. split; [exact Hr|].
    destruct Hex as [Hst Hd]; [reflexivity..|].
    split; [exact Hst|]. rewrite Hd. reflexivity.
Defined.

(** * Further properties *)

(** Closes [Forall isByte l] and the like on a closed list. *)
Ltac forall_closed :=
  vm_compute; repeat (constructor; [try split; congruence|]); constructor.

(** Closes [goodDelivery d] on a closed delivery. *)
Ltac good_delivery :=
  unfold goodDelivery;
  split; [forall_closed|];
  split; [vm_compute; lia|];
  split; [reflexivity|];
  split; [vm_compute; congruence|];
  split; [forall_closed|];
  reflexivity.

(** Closes [Forall storeInBuffer steps] on the steps of a closed run. *)
Ltac stores_in_buffer :=
  repeat (constructor; [vm_compute; first [exact I | split; congruence]|]);
  constructor.

(** ** The assembler over whole streams *)

(** Case analysis of one call of the receive callback. *)
Ltac crsf_step_cases :=
  unfold crsfDataReceive;
  destruct ((if _ >? _ then 0 else _) <? _);
  [ destruct (u8 _ >=? _);
    [ destruct (crsfFrameCRC _ =? _);
      [ destruct (crsfDispatch _ _ _ _ _) as [[[? ?] ?] ?] | ] | ] | ].

Lemma crsfDataReceive_channels (e : crsfEnv) (c t : Z) (s : crsfState) :
  crsfChannelData (stState (crsfDataReceive e c t s)) = crsfChannelData s.
Proof. crsf_step_cases; reflexivity. Qed.

Lemma crsfDataReceive_not_accepted (e : crsfEnv) (c t : Z) (s : crsfState) :
  let r := crsfDataReceive e c t s in
  stOutcome r <> FrameAccepted ->
  crsfFrameDone (stState r) = crsfFrameDone s
  /\ crsfChannelDataFrame (stState r) = crsfChannelDataFrame s
  /\ lastLinkStatisticsFrameUs (stState r) = lastLinkStatisticsFrameUs s
  /\ fallbackRequests (stCalls r) = length (stCalls r).
Proof.
  cbv zeta. crsf_step_cases; cbn [stOutcome stState stCalls crsfFrameDone
    crsfChannelDataFrame lastLinkStatisticsFrameUs]; intros Hne; try done;
    destruct (_ >=? _); done.
Qed.

Lemma allCalls_cons (r : rxStep) (steps : list rxStep) :
  allCalls (r :: steps) = stCalls r ++ allCalls steps.
Proof. reflexivity. Qed.

Lemma allCalls_app (l1 l2 : list rxStep) :
  allCalls (l1 ++ l2) = allCalls l1 ++ allCalls l2.
Proof. unfold allCalls. by rewrite fmap_app, concat_app. Qed.

Lemma crsfFrameStatus_view (s1 s2 : crsfState) :
  crsfFrameDone s1 = crsfFrameDone s2 ->
  crsfChannelDataFrame s1 = crsfChannelDataFrame s2 ->
  crsfChannelData s1 = crsfChannelData s2 ->
  pollView <$> crsfFrameStatus s1 = pollView <$> crsfFrameStatus s2.
Proof.
  intros Hd Hs Hc. unfold crsfFrameStatus. rewrite Hd, Hs, Hc.
  destruct (crsfFrameDone s2); [|cbn; unfold pollView; cbn; by rewrite Hc].
  destruct (frameType _ =? _).
  - destruct (unpackFixed _ _ _ _ _). reflexivity.
  - destruct (subsetUnpack _ _ _ _ _ _) as [[d st]|]; reflexivity.
Qed.

(** A stream in which no frame is accepted changes neither latch, snapshot
    nor channels and makes no call but fallback requests. *)
Lemma crsfReceiveAll_not_accepted (e : crsfEnv) (input : list (Z * Z)) :
  forall s : crsfState,
    FrameAccepted ∉ (stOutcome <$> crsfReceiveAll e input s) ->
    crsfFrameDone (lastState s (crsfReceiveAll e input s)) = crsfFrameDone s
    /\ crsfChannelDataFrame (lastState s (crsfReceiveAll e input s))
       = crsfChannelDataFrame s
    /\ crsfChannelData (lastState s (crsfReceiveAll e input s)) = crsfChannelData s
    /\ fallbackRequests (allCalls (crsfReceiveAll e input s))
       = length (allCalls (crsfReceiveAll e input s)).
Proof.
  induction input as [|[c t] input IH]; intros s Hnone; [done|].
  cbn [crsfReceiveAll fmap list_fmap] in Hnone.
  apply not_elem_of_cons in Hnone. destruct Hnone as [Hc Hrest].
  destruct (crsfDataReceive_not_accepted e c t s ltac:(congruence))
    as (Hd & Hs & _ & Hf).
  destruct (IH _ Hrest) as (Hd' & Hs' & Hc' & Hf').
  cbn [crsfReceiveAll lastState]. rewrite Hd', Hs', Hc', Hd, Hs.
  rewrite crsfDataReceive_channels, allCalls_cons, fallbackRequests_app, length_app.
  rewrite Hf, Hf'. done.
Qed.

(** X1: a stream whose bytes are all stored inside the 64-byte frame buffer
    (none behind it) and in which no frame is accepted (partial frames, bad
    checksums, ignored bytes) leaves latch, snapshot and channel values as
    they were and calls nothing but the baud-rate fallback, so a poll after it
    shows what a poll before it would have shown. *)
Theorem crsfReceiveAll_without_accepted_frame (e : crsfEnv) (input : list (Z * Z))
    (s : crsfState)
    (Hbuf : length (crsfFrame s) = 64%nat)
    (Hin : Forall storeInBuffer (crsfReceiveAll e input s))
    (Hnone : FrameAccepted ∉ (stOutcome <$> crsfReceiveAll e input s)) :
  let steps := crsfReceiveAll e input s in
  let s' := lastState s steps in
  crsfFrameDone s' = crsfFrameDone s
  /\ crsfChannelDataFrame s' = crsfChannelDataFrame s
  /\ crsfChannelData s' = crsfChannelData s
  /\ fallbackRequests (allCalls steps) = length (allCalls steps)
  /\ pollView <$> crsfFrameStatus s' = pollView <$> crsfFrameStatus s.
Proof.
  cbv zeta.
  destruct (crsfReceiveAll_not_accepted e input s Hnone) as (Hd & Hs & Hc & Hf).
  split; [done|]. split; [done|]. split; [done|]. split; [done|].
  by apply crsfFrameStatus_view.
Qed.

Lemma crsfReceiveAll_without_accepted_frame_witness :
  let steps := crsfReceiveAll crsfEnvDefault [(0xC8, 100); (0x18, 122); (0x16, 144)]
                 subsetExampleState in
  crsfFrameDone (lastState subsetExampleState steps) = true
  /\ crsfChannelDataFrame (lastState subsetExampleState steps)
     = crsfChannelDataFrame subsetExampleState.
Proof.
  pose proof (crsfReceiveAll_without_accepted_frame crsfEnvDefault
                [(0xC8, 100); (0x18, 122); (0x16, 144)] subsetExampleState) as H.
  cbv zeta in H. destruct H as (Hd & Hs & _).
  - reflexivity.
  - stores_in_buffer.
  - vm_compute. intros Hin.
    repeat (apply elem_of_cons in Hin; destruct Hin as [Hin|Hin]; [discriminate|]).
    by apply elem_of_nil in Hin.
  - split; [exact Hd|exact Hs].
Defined.

(** Two states that agree on the assembler's fields step alike. *)
Lemma crsfDataReceive_sameAssembler (e : crsfEnv) (c t : Z) (s1 s2 : crsfState) :
  sameAssembler s1 s2 ->
  stepView (crsfDataReceive e c t s1) = stepView (crsfDataReceive e c t s2)
  /\ sameAssembler (stState (crsfDataReceive e c t s1)) (stState (crsfDataReceive e c t s2)).
Proof.
  intros (Hf & Hp & Hst & Hcnt). unfold sameAssembler, stepView, crsfDataReceive.
  rewrite Hf, Hp, Hst, Hcnt.
  set (position := if _ >? _ then 0 else _).
  set (full := if position <? 3 then 5 else _).
  destruct (position <? full); [|done].
  destruct (u8 (position + 1) >=? full); [|done].
  destruct (crsfFrameCRC _ =? _); [|done].
  unfold crsfDispatch.
  repeat match goal with
         | |- context [if ?b then _ else _] => destruct b
         end; done.
Qed.

Lemma crsfFrameStatus_sameAssembler (s : crsfState) (r : pollResult) :
  crsfFrameStatus s = Some r -> sameAssembler (pollState r) s.
Proof.
  unfold crsfFrameStatus. destruct (crsfFrameDone s).
  - destruct (frameType _ =? _).
    + destruct (unpackFixed _ _ _ _ _). intros [= <-]. done.
    + destruct (subsetUnpack _ _ _ _ _ _) as [[d st]|]; [|done]. intros [= <-]. done.
  - intros [= <-]. done.
Qed.

(** X2: a poll whose stores all fall inside the 16-element channel array
    does not disturb the assembler: bytes received after it, stored inside
    the 64-byte frame buffer, have the outcomes, store indices and calls they
    would have had without the poll, and leave the same frame buffer,
    position, start time and error counter. *)
Theorem crsfFrameStatus_leaves_assembler (e : crsfEnv) (input : list (Z * Z))
    (s : crsfState) (r : pollResult)
    (Hpoll : crsfFrameStatus s = Some r)
    (Hch : length (crsfChannelData s) = 16%nat)
    (Hstores : storesInChannels (pollStores r))
    (Hbuf : length (crsfFrame s) = 64%nat)
    (Hin : Forall storeInBuffer (crsfReceiveAll e input s)) :
  stepView <$> crsfReceiveAll e input (pollState r)
  = stepView <$> crsfReceiveAll e input s
  /\ sameAssembler (lastState (pollState r) (crsfReceiveAll e input (pollState r)))
                   (lastState s (crsfReceiveAll e input s)).
Proof.
  pose proof (crsfFrameStatus_sameAssembler s r Hpoll) as Hsame.
  revert Hsame. generalize (pollState r). clear Hpoll Hstores Hch Hbuf Hin r. revert s.
  induction input as [|[c t] input IH]; intros s s1 Hsame; [done|].
  cbn [crsfReceiveAll fmap list_fmap lastState].
  destruct (crsfDataReceive_sameAssembler e c t s1 s Hsame) as [Hv Hs].
  destruct (IH _ _ Hs) as [IHv IHs]. rewrite Hv, IHv. done.
Qed.

Lemma crsfFrameStatus_leaves_assembler_witness :
  exists r,
    crsfFrameStatus subsetExampleState = Some r
    /\ pollStores r = [(4, 100); (5, 2000)]
    /\ stepView <$> crsfReceiveAll crsfEnvDefault (subsetExampleStream 6667) (pollState r)
       = stepView <$> crsfReceiveAll crsfEnvDefault (subsetExampleStream 6667)
                        subsetExampleState.
Proof.
  eexists. split; [vm_compute; reflexivity|]. split; [reflexivity|].
  eapply proj1.
  apply (crsfFrameStatus_leaves_assembler crsfEnvDefault (subsetExampleStream 6667)
           subsetExampleState).
  - vm_compute. reflexivity.
  - reflexivity.
  - repeat (constructor; [vm_compute; split; congruence|]). constructor.
  - reflexivity.
  - stores_in_buffer.
Defined.

(** The counter after one call, by outcome. *)
Lemma crsfDataReceive_counter (e : crsfEnv) (c t : Z) (s : crsfState) :
  0 <= crsfFrameErrorCnt s < 100 ->
  let r := crsfDataReceive e c t s in
  let cnt := crsfFrameErrorCnt s in
  let cnt' := crsfFrameErrorCnt (stState r) in
  match stOutcome r with
  | ByteIgnored => cnt' = cnt /\ fallbackRequests (stCalls r) = 0%nat
  | FrameAccepted => cnt' = 0 /\ fallbackRequests (stCalls r) = 0%nat
  | ByteStored | FrameRejected =>
      cnt' = (cnt + 1) mod 100
      /\ Z.of_nat (fallbackRequests (stCalls r)) = (cnt + 1) / 100
  end.
Proof.
  intros Hcnt. cbv zeta.
  assert (Hbump : bumpErrorCnt (crsfFrameErrorCnt s) = crsfFrameErrorCnt s + 1).
  { unfold bumpErrorCnt, CRSF_FRAME_ERROR_COUNT_THRESHOLD, u32.
    destruct (Z.ltb_spec (crsfFrameErrorCnt s) 100); [|lia].
    apply Z.mod_small. lia. }
  unfold crsfDataReceive.
  set (position := if _ >? _ then 0 else _).
  set (full := if position <? 3 then 5 else _).
  destruct (position <? full); [|done].
  assert (Hstored : forall calls : list call, calls = [] ->
    (if crsfFrameErrorCnt s + 1 >=? 100 then 0 else crsfFrameErrorCnt s + 1)
    = (crsfFrameErrorCnt s + 1) mod 100
    /\ Z.of_nat (fallbackRequests
         (calls ++ (if crsfFrameErrorCnt s + 1 >=? 100 then [setCrsfDefaultSpeed] else [])))
       = (crsfFrameErrorCnt s + 1) / 100).
  { intros calls ->. destruct (Z.geb_spec (crsfFrameErrorCnt s + 1) 100); simpl;
      Z.div_mod_to_equations; lia. }
  destruct (u8 (position + 1) >=? full).
  - destruct (crsfFrameCRC _ =? _).
    + pose proof (crsfDispatch_no_fallback e
        (storeByte (crsfFrame s) position (u8 c)) full t s) as Hd.
      destruct (crsfDispatch _ _ _ _ _) as [[[dn sn] st] calls].
      simpl in *. rewrite app_nil_r. done.
    + cbn [stOutcome stState stCalls crsfFrameErrorCnt]. rewrite Hbump.
      unfold CRSF_FRAME_ERROR_COUNT_THRESHOLD. by apply Hstored.
  - cbn [stOutcome stState stCalls crsfFrameErrorCnt]. rewrite Hbump.
    unfold CRSF_FRAME_ERROR_COUNT_THRESHOLD. by apply Hstored.
Qed.

(** X3: once the position has reached the announced frame length
    without completion (a length byte below 2 after the three header bytes),
    every byte arriving within the timeout is ignored: nothing is stored,
    nothing is called and the state stays as it is. *)
Theorem crsfReceiveAll_stalled (e : crsfEnv) (input : list (Z * Z)) (s : crsfState)
    (Hpos : 3 <= crsfFramePosition s)
    (Hfull : frameLength (crsfFrame s) + 2 <= crsfFramePosition s)
    (Htimes : Forall (fun ct => ct.2 <= u32 (crsfFrameStartAtUs s
                                            + CRSF_TIME_NEEDED_PER_FRAME_US)) input) :
  let steps := crsfReceiveAll e input s in
  stepView <$> steps = replicate (length input) (ByteIgnored, None, [])
  /\ lastState s steps = s.
Proof.
  cbv zeta. induction input as [|[c t] input IH]; [done|].
  apply Forall_cons in Htimes. destruct Htimes as [Ht Hrest]. simpl in Ht.
  assert (Hstep : crsfDataReceive e c t s
                  = {| stState := s; stIndex := None; stOutcome := ByteIgnored;
                       stCalls := [] |}).
  { unfold crsfDataReceive.
    destruct (Z.gtb_spec t (u32 (crsfFrameStartAtUs s + CRSF_TIME_NEEDED_PER_FRAME_US)));
      [lia|].
    destruct (Z.ltb_spec (crsfFramePosition s) 3); [lia|].
    unfold CRSF_FRAME_LENGTH_ADDRESS, CRSF_FRAME_LENGTH_FRAMELENGTH.
    destruct (Z.ltb_spec (crsfFramePosition s) (frameLength (crsfFrame s) + 1 + 1));
      [lia|].
    destruct (Z.eqb_spec (crsfFramePosition s) 0); [lia|].
    by destruct s. }
  cbn [crsfReceiveAll length replicate fmap list_fmap lastState]. rewrite Hstep.
  cbn [stState]. destruct (IH Hrest) as [IHv IHs]. rewrite IHv, IHs. done.
Qed.

Lemma crsfReceiveAll_stalled_witness :
  stepView <$> crsfReceiveAll crsfEnvDefault [(0x55, 50); (0xC8, 900)] stalledState
  = [(ByteIgnored, None, []); (ByteIgnored, None, [])].
Proof.
  apply (crsfReceiveAll_stalled crsfEnvDefault [(0x55, 50); (0xC8, 900)] stalledState).
  - vm_compute. congruence.
  - vm_compute. congruence.
  - forall_closed.
Defined.

(** X4: a byte is stored at an index below 5 or below the announced
    frame length; when the announced length fits the buffer the index is
    below 64 and the buffer holds the byte there afterwards. *)
Theorem crsfDataReceive_store_bound (e : crsfEnv) (c t : Z) (s : crsfState) (i : Z)
    (Hpos : 0 <= crsfFramePosition s)
    (Hstore : stIndex (crsfDataReceive e c t s) = Some i) :
  0 <= i
  /\ (i < 5 \/ i < frameLength (crsfFrame s) + 2)
  /\ (frameLength (crsfFrame s) + 2 <= CRSF_FRAME_SIZE_MAX ->
      i < CRSF_FRAME_SIZE_MAX
      /\ (length (crsfFrame s) = 64%nat ->
          crsfFrame (stState (crsfDataReceive e c t s)) !! Z.to_nat i = Some (u8 c))).
Proof.
  revert Hstore. unfold crsfDataReceive, CRSF_FRAME_SIZE_MAX.
  set (position := if _ >? _ then 0 else _).
  assert (Hp : 0 <= position) by (subst position; destruct (_ >? _); lia).
  unfold CRSF_FRAME_LENGTH_ADDRESS, CRSF_FRAME_LENGTH_FRAMELENGTH.
  set (full := if position <? 3 then 5 else _).
  assert (Hfull : full = 5 \/ full = frameLength (crsfFrame s) + 2).
  { subst full. destruct (position <? 3); lia. }
  destruct (Z.ltb_spec position full) as [Hlt|]; [|done].
  assert (Hframe : forall st, crsfFrame (stState st) = storeByte (crsfFrame s) position (u8 c) ->
            frameLength (crsfFrame s) + 2 <= 64 ->
            position < 64 /\ (length (crsfFrame s) = 64%nat ->
               crsfFrame (stState st) !! Z.to_nat position = Some (u8 c))).
  { intros st -> Hfit. split; [lia|]. intros Hlen. unfold storeByte.
    destruct (Z.ltb_spec position 0); [lia|].
    apply list_lookup_insert_eq. lia. }
  destruct (u8 (position + 1) >=? full).
  - destruct (crsfFrameCRC _ =? _).
    + destruct (crsfDispatch _ _ _ _ _) as [[[dn sn] st] calls].
      intros [= <-]. split; [lia|]. split; [lia|]. by apply Hframe.
    + intros [= <-]. split; [lia|]. split; [lia|]. by apply Hframe.
  - intros [= <-]. split; [lia|]. split; [lia|]. by apply Hframe.
Qed.

Lemma crsfDataReceive_store_bound_witness :
  0 <= 2 /\ (2 < 5 \/ 2 < frameLength (crsfFrame partialFrameState) + 2).
Proof.
  pose proof (crsfDataReceive_store_bound crsfEnvDefault 0x16 44 partialFrameState 2) as H.
  destruct H as (H1 & H2 & _).
  - vm_compute. congruence.
  - reflexivity.
  - split; [exact H1|exact H2].
Defined.

Lemma length_wireFrame (addr ty : Z) (pl : list Z) (crc : Z) :
  length (wireFrame addr ty pl crc) = (length pl + 4)%nat.
Proof. unfold wireFrame. simpl. rewrite length_app. simpl. lia. Qed.

(** The last byte of a frame received by an idle assembler. *)
Lemma crsfReceiveAll_wireFrame_last (e : crsfEnv) (addr ty : Z) (pl : list Z) (crc : Z)
    (t0 : Z) (ts : list Z) (s : crsfState) :
  Forall isByte (wireFrame addr ty pl crc) ->
  (length (wireFrame addr ty pl crc) <= 64)%nat ->
  length ts = (length pl + 3)%nat ->
  0 <= t0 ->
  t0 + CRSF_TIME_NEEDED_PER_FRAME_US < 2 ^ 32 ->
  Forall (fun t => t <= t0 + CRSF_TIME_NEEDED_PER_FRAME_US) ts ->
  crsfFramePosition s = 0 ->
  length (crsfFrame s) = 64%nat ->
  let fr := wireFrame addr ty pl crc in
  let input := zip fr (t0 :: ts) in
  let f := fr ++ drop (length fr) (crsfFrame s) in
  exists (st : crsfState) (t : Z),
    let pre := crsfReceiveAll e (take (length pl + 3) input) s in
    let r := crsfDataReceive e crc t st in
    crsfReceiveAll e input s = pre ++ [r]
    /\ st = lastState s pre
    /\ length (take (length pl + 3) input) = (length pl + 3)%nat
    /\ stOutcome <$> pre = replicate (length pl + 3) ByteStored
    /\ crsfFrameDone st = crsfFrameDone s
    /\ crsfChannelDataFrame st = crsfChannelDataFrame s
    /\ crsfFrame (stState r) = f
    /\ crsfFramePosition (stState r) = 0
    /\ if crc8Over (ty :: pl) =? crc
       then stOutcome r = FrameAccepted
            /\ stCalls r = (crsfDispatch e f (Z.of_nat (length fr)) t st).2
            /\ crsfFrameDone (stState r)
               = (crsfDispatch e f (Z.of_nat (length fr)) t st).1.1.1
            /\ crsfChannelDataFrame (stState r)
               = (crsfDispatch e f (Z.of_nat (length fr)) t st).1.1.2
            /\ crsfFrameErrorCnt (stState r) = 0
       else stOutcome r = FrameRejected.
Proof.
  intros Hbytes Hsize Hts Ht0 Hwindow Hwithin Hpos Hbuf fr input f.
  pose proof (length_wireFrame addr ty pl crc) as Hn. fold fr in Hn.
  assert (Hsize' : (length fr <= 64)%nat) by exact Hsize.
  set (k := (length pl + 3)%nat).
  destruct (assembled_prefix e addr ty pl crc t0 ts s Hbytes Hsize Hts Ht0 Hwindow
              Hwithin Hpos Hbuf k ltac:(fold fr; lia)) as [Ho Hinv].
  fold fr in Ho, Hinv. fold input in Ho, Hinv.
  assert (Hlk : is_Some (input !! k)).
  { apply lookup_lt_is_Some_2. subst input. rewrite length_zip_with, length_cons, Hts. lia. }
  destruct Hlk as [[c t] Hin].
  assert (Hall : input = take (S k) input).
  { symmetry. apply take_ge. subst input. rewrite length_zip_with, length_cons, Hts. lia. }
  destruct (wireFrame_input addr ty pl crc t0 ts s Hbytes Hsize Hts Hwithin Hbuf k c t Hin)
    as (Hc & Hcb & Ht).
  set (pre := crsfReceiveAll e (take k input) s) in *.
  set (st := lastState s pre) in *.
  pose proof Hinv as (Hp & Hf & Hst & Hd & Hsn & Hch).
  assert (Hcrc : c = crc).
  { assert (Hk : k = (3 + length pl)%nat) by lia.
    rewrite Hk in Hc. subst fr. unfold wireFrame in Hc.
    rewrite <- lookup_drop in Hc. simpl in Hc. rewrite drop_0 in Hc.
    rewrite lookup_app_r, Nat.sub_diag in Hc by lia. by injection Hc as <-. }
  subst c.
  exists st, t. cbv zeta. fold k. fold pre.
  split. { rewrite Hall at 1. rewrite (take_S_r _ _ _ Hin), crsfReceiveAll_app. reflexivity. }
  split; [done|].
  split. { apply length_take_le. subst input. rewrite length_zip_with, length_cons, Hts. lia. }
  split; [done|]. split; [done|]. split; [done|].
  destruct (crsfDataReceive_completed e crc t st) as (_ & Hf' & Hp' & _ & Hend).
  { lia. } { lia. }
  { destruct Ht as [[Hk0 _]|[Hk0 Ht]]; [lia|].
    rewrite (Hst Hk0). unfold u32. rewrite Z.mod_small; [done|].
    unfold CRSF_TIME_NEEDED_PER_FRAME_US in *. lia. }
  { rewrite (assembled_frameLength addr ty pl crc t0 ts s Hsize Hts Hbuf k st Hinv) by lia.
    lia. }
  rewrite Hp, storeByte_nat, (u8_byte crc Hcb), Hf, insert_assembled in Hend, Hf'
    by (done || lia).
  replace (S k) with (length fr) in Hend, Hf' by lia.
  rewrite firstn_all in Hend, Hf'. fold f in Hend, Hf'.
  destruct (wireFrame_in_buffer addr ty pl crc (drop (length fr) (crsfFrame s)))
    as (_ & _ & _ & _ & Hlast & Hfc).
  fold fr in Hlast, Hfc. fold f in Hlast, Hfc. rewrite Hfc in Hend.
  replace (Z.of_nat k) with (Z.of_nat (length pl) + 3) in Hend by lia.
  rewrite Hlast in Hend.
  replace (Z.of_nat (length pl) + 3 + 1) with (Z.of_nat (length fr)) in Hend by lia.
  split; [done|]. split; [done|].
  destruct (crc8Over (ty :: pl) =? crc); [exact Hend|apply Hend].
Qed.

(** The counter over a stream in which every byte is stored and no frame is
    accepted. *)
Lemma crsfReceiveAll_counts (e : crsfEnv) (input : list (Z * Z)) :
  forall s : crsfState,
    0 <= crsfFrameErrorCnt s < 100 ->
    Forall (fun o => o = ByteStored \/ o = FrameRejected)
      (stOutcome <$> crsfReceiveAll e input s) ->
    crsfFrameErrorCnt (lastState s (crsfReceiveAll e input s))
    = (crsfFrameErrorCnt s + Z.of_nat (length input)) mod 100
    /\ Z.of_nat (fallbackRequests (allCalls (crsfReceiveAll e input s)))
       = (crsfFrameErrorCnt s + Z.of_nat (length input)) / 100.
Proof.
  induction input as [|[c t] input IH]; intros s Hcnt Hall.
  - cbn. rewrite Z.add_0_r. split; [symmetry; by apply Z.mod_small|].
    symmetry. by apply Z.div_small.
  - cbn [crsfReceiveAll fmap list_fmap lastState length] in *.
    apply Forall_cons in Hall. destruct Hall as [Ho Hrest].
    pose proof (crsfDataReceive_counter e c t s Hcnt) as Hstep. cbv zeta in Hstep.
    assert (Hstep' : crsfFrameErrorCnt (stState (crsfDataReceive e c t s))
                     = (crsfFrameErrorCnt s + 1) mod 100
                     /\ Z.of_nat (fallbackRequests (stCalls (crsfDataReceive e c t s)))
                        = (crsfFrameErrorCnt s + 1) / 100).
    { destruct Ho as [Ho|Ho]; rewrite Ho in Hstep; exact Hstep. }
    destruct Hstep' as [Hc' Hf'].
    destruct (IH (stState (crsfDataReceive e c t s))) as [IHc IHf].
    + rewrite Hc'. apply Z.mod_pos_bound. lia.
    + exact Hrest.
    + rewrite IHc, allCalls_cons, fallbackRequests_app, Nat2Z.inj_add, IHf, Hf', Hc'.
      set (c0 := crsfFrameErrorCnt s) in *. set (n := Z.of_nat (length input)).
      replace (Z.of_nat (S (length input))) with (n + 1) by lia.
      assert (0 <= n) by lia. clearbody c0 n.
      split; Z.div_mod_to_equations; lia.
Qed.

(** One good delivery to an idle assembler with the counter at 0. *)
Lemma goodDelivery_run (e : crsfEnv) (d : delivery) (s : crsfState) :
  goodDelivery d ->
  dStart d + CRSF_TIME_NEEDED_PER_FRAME_US < 2 ^ 32 ->
  crsfFramePosition s = 0 ->
  length (crsfFrame s) = 64%nat ->
  crsfFrameErrorCnt s = 0 ->
  let steps := crsfReceiveAll e (deliveryInput d) s in
  stOutcome <$> steps
  = replicate (length (deliveryFrame d) - 1) ByteStored ++ [FrameAccepted]
  /\ fallbackRequests (allCalls steps) = 0%nat
  /\ crsfFramePosition (lastState s steps) = 0
  /\ length (crsfFrame (lastState s steps)) = 64%nat
  /\ crsfFrameErrorCnt (lastState s steps) = 0.
Proof.
  intros (Hbytes & Hsize & Hts & Ht0 & Hwithin & Hcrc) Hwindow Hpos Hbuf Hcnt.
  unfold deliveryInput, deliveryFrame in *. cbv zeta.
  destruct (crsfReceiveAll_wireFrame_last e _ _ _ _ _ _ s
              Hbytes Hsize Hts Ht0 Hwindow Hwithin Hpos Hbuf)
    as (st & t & Hsteps & Hst & Hlen & Ho & _ & _ & Hf & Hp & Hend).
  rewrite Hcrc, Z.eqb_refl in Hend. destruct Hend as (Hacc & Hcalls & _ & _ & Hcnt').
  pose proof (length_wireFrame (dAddr d) (dType d) (dPayload d) (dCrc d)) as Hn.
  set (inp := take _ _) in *. set (pre := crsfReceiveAll e inp s) in *.
  destruct (crsfReceiveAll_counts e inp s ltac:(lia)) as [_ Hfb].
  { fold pre. rewrite Ho. apply Forall_replicate. by left. }
  fold pre in Hfb. rewrite Hcnt, Hlen, Z.add_0_l in Hfb.
  rewrite Z.div_small in Hfb by lia.
  rewrite Hsteps, fmap_app, Ho, Hn, lastState_app, allCalls_app, fallbackRequests_app.
  cbn [fmap list_fmap lastState]. rewrite Hacc, Hp, Hcnt', Hf.
  split; [f_equal; f_equal; lia|]. split.
  { unfold allCalls at 2. cbn [fmap list_fmap concat]. rewrite app_nil_r, Hcalls.
    rewrite crsfDispatch_no_fallback. lia. }
  split; [done|]. split; [|done].
  rewrite length_app, length_drop, Hn. lia.
Qed.

(** X5: any sequence of well-formed, CRC-valid frames of at most 64
    bytes, each delivered within its 1100 microseconds and each begun more
    than 1100 microseconds before the 32-bit timer wraps
    ([dStart + 1100 < 2^32]), received from an idle assembler with the error
    counter at 0: each frame completes exactly once, at its last byte, and is
    accepted; no baud-rate fallback is requested; the assembler ends idle
    with the counter at 0. *)
Theorem crsfReceiveAll_good_deliveries (e : crsfEnv) (ds : list delivery) (s : crsfState)
    (Hgood : Forall goodDelivery ds)
    (Hclear : Forall (fun d => dStart d + CRSF_TIME_NEEDED_PER_FRAME_US < 2 ^ 32) ds)
    (Hpos : crsfFramePosition s = 0)
    (Hbuf : length (crsfFrame s) = 64%nat)
    (Hcnt : crsfFrameErrorCnt s = 0) :
  let steps := crsfReceiveAll e (concat (deliveryInput <$> ds)) s in
  stOutcome <$> steps
  = concat ((fun d => replicate (length (deliveryFrame d) - 1) ByteStored
                      ++ [FrameAccepted]) <$> ds)
  /\ fallbackRequests (allCalls steps) = 0%nat
  /\ crsfFramePosition (lastState s steps) = 0
  /\ crsfFrameErrorCnt (lastState s steps) = 0.
Proof.
  cbv zeta. revert s Hpos Hbuf Hcnt.
  induction ds as [|d ds IH]; intros s Hpos Hbuf Hcnt; [done|].
  apply Forall_cons in Hgood. destruct Hgood as [Hd Hds].
  apply Forall_cons in Hclear. destruct Hclear as [Hw Hws].
  cbn [fmap list_fmap concat].
  destruct (goodDelivery_run e d s Hd Hw Hpos Hbuf Hcnt) as (Ho & Hfb & Hp & Hl & Hc).
  destruct (IH Hds Hws _ Hp Hl Hc) as (IHo & IHfb & IHp & IHc).
  rewrite crsfReceiveAll_app, fmap_app, lastState_app, allCalls_app, fallbackRequests_app.
  rewrite Ho, IHo, Hfb, IHfb, IHp, IHc. done.
Qed.

Lemma crsfReceiveAll_good_deliveries_witness :
  let ds := [subsetExampleDelivery 0; subsetExampleDelivery 6667] in
  let steps := crsfReceiveAll crsfEnvDefault (concat (deliveryInput <$> ds))
                 (crsfRxInit 1500) in
  fallbackRequests (allCalls steps) = 0%nat
  /\ crsfFrameErrorCnt (lastState (crsfRxInit 1500) steps) = 0.
Proof.
  pose proof (crsfReceiveAll_good_deliveries crsfEnvDefault
                [subsetExampleDelivery 0; subsetExampleDelivery 6667]
                (crsfRxInit 1500)) as H.
  cbv zeta in H. destruct H as (_ & Hf & _ & Hc).
  - repeat (constructor; [good_delivery|]). constructor.
  - repeat (constructor; [vm_compute; reflexivity|]). constructor.
  - reflexivity.
  - reflexivity.
  - reflexivity.
  - split; [exact Hf|exact Hc].
Defined.



(** The switch on an RC-channel frame. *)
Lemma crsfDispatch_rc (e : crsfEnv) (f : list Z) (full t : Z) (s : crsfState) :
  frameType f = CRSF_FRAMETYPE_RC_CHANNELS_PACKED
  \/ frameType f = CRSF_FRAMETYPE_SUBSET_RC_CHANNELS_PACKED ->
  crsfDispatch e f full t s
  = if deviceAddress f =? CRSF_ADDRESS_FLIGHT_CONTROLLER
    then (true, f, lastLinkStatisticsFrameUs s, [])
    else (crsfFrameDone s, crsfChannelDataFrame s, lastLinkStatisticsFrameUs s, []).
Proof. intros [Hty|Hty]; unfold crsfDispatch; rewrite Hty; reflexivity. Qed.

(** X7: a CRC-valid RC-channel frame (fixed or subset) of at most 64 bytes,
    whose first byte arrives more than 1100 microseconds before the 32-bit
    timer wraps ([t0 + 1100 < 2^32]) and whose other bytes arrive no later
    than 1100 microseconds after the first, received by an idle assembler,
    reaches no handler and leaves the channel values alone;
    addressed to the flight controller it raises the latch with the frame as
    snapshot, and the next poll returns "complete" and clears the latch;
    addressed elsewhere it leaves latch and snapshot as they were. *)
Theorem crsfReceiveAll_rc_frame (e : crsfEnv) (addr ty : Z) (pl : list Z) (crc : Z)
    (t0 : Z) (ts : list Z) (s : crsfState)
    (Hbytes : Forall isByte (wireFrame addr ty pl crc))
    (Hsize : (length (wireFrame addr ty pl crc) <= 64)%nat)
    (Hts : length ts = (length pl + 3)%nat)
    (Ht0 : 0 <= t0)
    (Hwindow : t0 + CRSF_TIME_NEEDED_PER_FRAME_US < 2 ^ 32)
    (Hwithin : Forall (fun t => t <= t0 + CRSF_TIME_NEEDED_PER_FRAME_US) ts)
    (Hpos : crsfFramePosition s = 0)
    (Hbuf : length (crsfFrame s) = 64%nat)
    (Hty : ty = CRSF_FRAMETYPE_RC_CHANNELS_PACKED
           \/ ty = CRSF_FRAMETYPE_SUBSET_RC_CHANNELS_PACKED)
    (Hcrc : crc8Over (ty :: pl) = crc) :
  let fr := wireFrame addr ty pl crc in
  let steps := crsfReceiveAll e (zip fr (t0 :: ts)) s in
  let s' := lastState s steps in
  fallbackRequests (allCalls steps) = length (allCalls steps)
  /\ crsfChannelData s' = crsfChannelData s
  /\ (addr = CRSF_ADDRESS_FLIGHT_CONTROLLER ->
      crsfFrameDone s' = true
      /\ crsfChannelDataFrame s' = fr ++ drop (length fr) (crsfFrame s)
      /\ exists r, crsfFrameStatus s' = Some r /\ pollStatus r = RX_FRAME_COMPLETE
                   /\ crsfFrameDone (pollState r) = false)
  /\ (addr <> CRSF_ADDRESS_FLIGHT_CONTROLLER ->
      crsfFrameDone s' = crsfFrameDone s
      /\ crsfChannelDataFrame s' = crsfChannelDataFrame s).
Proof.
  intros fr steps s'.
  destruct (crsfReceiveAll_wireFrame_last e addr ty pl crc t0 ts s
              Hbytes Hsize Hts Ht0 Hwindow Hwithin Hpos Hbuf)
    as (st & t & Hsteps & Hst & Hlen & Ho & Hd & Hsn & Hf & Hp & Hend).
  fold fr in Hsteps, Hst, Hlen, Ho, Hf, Hend.
  rewrite Hcrc, Z.eqb_refl in Hend. destruct Hend as (Hacc & Hcalls & Hdone & Hsnap & _).
  set (inp := take _ _) in *. set (pre := crsfReceiveAll e inp s) in *.
  destruct (crsfReceiveAll_not_accepted e inp s) as (_ & _ & Hch & Hfb).
  { fold pre. rewrite Ho. intros Hin. apply elem_of_replicate in Hin.
    destruct Hin as [Hin _]. discriminate. }
  fold pre in Hch, Hfb.
  destruct (wireFrame_in_buffer addr ty pl crc (drop (length fr) (crsfFrame s)))
    as (Haddr & _ & Htype & _).
  fold fr in Haddr, Htype.
  rewrite crsfDispatch_rc in Hcalls, Hdone, Hsnap by (rewrite Htype; exact Hty).
  rewrite Haddr in Hcalls, Hdone, Hsnap.
  assert (Hs' : s' = stState (crsfDataReceive e crc t st)).
  { subst s' steps. rewrite Hsteps, lastState_app. reflexivity. }
  assert (Hcalls' : stCalls (crsfDataReceive e crc t st) = []).
  { rewrite Hcalls. by destruct (addr =? _). }
  split.
  { subst steps. rewrite Hsteps, allCalls_app, fallbackRequests_app, length_app, Hfb.
    unfold allCalls at 2 4. cbn [fmap list_fmap concat]. rewrite Hcalls'. done. }
  split.
  { rewrite Hs', crsfDataReceive_channels, Hst. exact Hch. }
  rewrite Hs'. split.
  - intros ->. rewrite Z.eqb_refl in Hdone, Hsnap. cbn [fst snd] in Hdone, Hsnap.
    split; [done|]. split; [by rewrite Hsnap|].
    destruct (crsfFrameStatus_total (stState (crsfDataReceive e crc t st))) as [r Hr].
    exists r. split; [done|]. by apply (crsfFrameStatus_latched _ r Hdone).
  - intros Hne. destruct (Z.eqb_spec addr CRSF_ADDRESS_FLIGHT_CONTROLLER); [done|].
    cbn [fst snd] in Hdone, Hsnap. by rewrite Hdone, Hsnap, Hd, Hsn.
Qed.

Lemma crsfReceiveAll_rc_frame_witness :
  let steps := crsfReceiveAll crsfEnvDefault
                 (zip subsetExampleFrame (0 :: [1; 2; 3; 4; 5; 6; 7])) (crsfRxInit 1500) in
  crsfFrameDone (lastState (crsfRxInit 1500) steps) = true.
Proof.
  pose proof (crsfReceiveAll_rc_frame crsfEnvDefault
                CRSF_ADDRESS_FLIGHT_CONTROLLER CRSF_FRAMETYPE_SUBSET_RC_CHANNELS_PACKED
                [132; 12; 208; 7]
                (crc8Over [CRSF_FRAMETYPE_SUBSET_RC_CHANNELS_PACKED; 132; 12; 208; 7])
                0 [1; 2; 3; 4; 5; 6; 7] (crsfRxInit 1500)) as H.
  cbv zeta in H. destruct H as (_ & _ & Hfc & _).
  - forall_closed.
  - vm_compute. lia.
  - reflexivity.
  - lia.
  - vm_compute. reflexivity.
  - forall_closed.
  - reflexivity.
  - reflexivity.
  - by right.
  - reflexivity.
  - apply Hfc. reflexivity.
Defined.

(** X8: a received byte that is not stored behind the 64-byte frame buffer
    either leaves latch and snapshot as they were, or it completed a
    CRC-valid RC-channel frame addressed to the flight controller: then no
    handler is called, the latch is set and the snapshot is the frame buffer.
    Such a byte never clears the latch. *)
Theorem crsfDataReceive_latch (e : crsfEnv) (c t : Z) (s : crsfState)
    (Hbuf : length (crsfFrame s) = 64%nat)
    (Hin : storeInBuffer (crsfDataReceive e c t s)) :
  let r := crsfDataReceive e c t s in
  (crsfFrameDone (stState r) = crsfFrameDone s
   /\ crsfChannelDataFrame (stState r) = crsfChannelDataFrame s)
  \/ (stOutcome r = FrameAccepted
      /\ (frameType (crsfFrame (stState r)) = CRSF_FRAMETYPE_RC_CHANNELS_PACKED
          \/ frameType (crsfFrame (stState r)) = CRSF_FRAMETYPE_SUBSET_RC_CHANNELS_PACKED)
      /\ deviceAddress (crsfFrame (stState r)) = CRSF_ADDRESS_FLIGHT_CONTROLLER
      /\ stCalls r = []
      /\ crsfFrameDone (stState r) = true
      /\ crsfChannelDataFrame (stState r) = crsfFrame (stState r)).
Proof.
  clear Hbuf Hin. cbv zeta. unfold crsfDataReceive.
  set (position := if _ >? _ then 0 else _).
  set (full := if position <? 3 then 5 else _).
  destruct (position <? full); [|by left].
  destruct (u8 (position + 1) >=? full); [|by left].
  destruct (crsfFrameCRC _ =? _); [|by left].
  set (f := storeByte (crsfFrame s) position (u8 c)).
  unfold crsfDispatch.
  destruct (Z.eqb_spec (frameType f) CRSF_FRAMETYPE_RC_CHANNELS_PACKED) as [Hty|Hty];
    [|destruct (Z.eqb_spec (frameType f) CRSF_FRAMETYPE_SUBSET_RC_CHANNELS_PACKED)
        as [Hty'|Hty']];
    cbn [orb];
    try (destruct (Z.eqb_spec (deviceAddress f) CRSF_ADDRESS_FLIGHT_CONTROLLER);
         [right; cbn; fold f; intuition auto | by left]).
  repeat match goal with
         | |- context [if ?b then _ else _] => destruct b
         end; by left.
Qed.

Lemma crsfDataReceive_latch_witness :
  let r := crsfDataReceive crsfEnvDefault
             (crc8Over [CRSF_FRAMETYPE_SUBSET_RC_CHANNELS_PACKED; 132; 12; 208; 7]) 7
             subsetAlmostState in
  crsfFrameDone subsetAlmostState = false
  /\ stOutcome r = FrameAccepted
  /\ crsfFrameDone (stState r) = true
  /\ crsfChannelDataFrame (stState r) = crsfFrame (stState r).
Proof.
  cbv zeta. split; [reflexivity|].
  pose proof (crsfDataReceive_latch crsfEnvDefault
                (crc8Over [CRSF_FRAMETYPE_SUBSET_RC_CHANNELS_PACKED; 132; 12; 208; 7]) 7
                subsetAlmostState eq_refl ltac:(vm_compute; split; congruence)) as H.
  cbv zeta in H. destruct H as [[Hd _]|(Ho & _ & _ & _ & Hd & Hs)].
  - vm_compute in Hd. discriminate Hd.
  - split; [exact Ho|]. split; [exact Hd|exact Hs].
Defined.

(** X9: in the last 1100 microseconds before the 32-bit microsecond
    timer wraps, [crsfFrameStartAtUs + 1100] wraps first: with the frame start
    in that window every byte arriving in it is taken as the start of a new
    frame and stored at index 0, so no frame is assembled. *)
Theorem crsfReceiveAll_rollover_window (e : crsfEnv) (input : list (Z * Z))
    (s : crsfState)
    (Hstart : 2 ^ 32 - CRSF_TIME_NEEDED_PER_FRAME_US <= crsfFrameStartAtUs s < 2 ^ 32)
    (Htimes : Forall (fun ct => 2 ^ 32 - CRSF_TIME_NEEDED_PER_FRAME_US <= ct.2 < 2 ^ 32)
                input) :
  (fun r => (stOutcome r, stIndex r)) <$> crsfReceiveAll e input s
  = replicate (length input) (ByteStored, Some 0).
Proof.
  revert s Hstart. induction input as [|[c t] input IH]; intros s Hstart; [done|].
  apply Forall_cons in Htimes. destruct Htimes as [Ht Hrest]. simpl in Ht.
  unfold CRSF_TIME_NEEDED_PER_FRAME_US in *.
  assert (Hlate : u32 (crsfFrameStartAtUs s + 1100) < t).
  { unfold u32. Z.div_mod_to_equations. lia. }
  assert (Hstep : stOutcome (crsfDataReceive e c t s) = ByteStored
                  /\ stIndex (crsfDataReceive e c t s) = Some 0
                  /\ crsfFrameStartAtUs (stState (crsfDataReceive e c t s)) = t).
  { unfold crsfDataReceive, CRSF_TIME_NEEDED_PER_FRAME_US.
    destruct (Z.gtb_spec t (u32 (crsfFrameStartAtUs s + 1100))); [|lia]. cbn. done. }
  destruct Hstep as (Ho & Hi & Hs).
  cbn [crsfReceiveAll fmap list_fmap length replicate]. rewrite Ho, Hi. f_equal.
  apply (IH Hrest). rewrite Hs. lia.
Qed.

Lemma crsfReceiveAll_rollover_window_witness :
  (fun r => (stOutcome r, stIndex r))
    <$> crsfReceiveAll crsfEnvDefault [(0x18, 4294967218); (0x16, 4294967240)] rolloverState
  = [(ByteStored, Some 0); (ByteStored, Some 0)].
Proof.
  apply (crsfReceiveAll_rollover_window crsfEnvDefault
           [(0x18, 4294967218); (0x16, 4294967240)] rolloverState).
  - vm_compute. split; congruence.
  - repeat (constructor; [vm_compute; split; congruence|]). constructor.
Defined.

(** ** Fixed-format unpacking *)

Lemma fixedStores_cons (f : list Z) (k : Z) (count : nat) :
  fixedStores f k (Z.of_nat (S count))
  = (k, rcChannel f k) :: fixedStores f (k + 1) (Z.of_nat count).
Proof.
  unfold fixedStores. rewrite seqZ_cons by lia. cbn [fmap list_fmap].
  replace (Z.pred (Z.of_nat (S count))) with (Z.of_nat count) by lia.
  replace (Z.succ k) with (k + 1) by lia. reflexivity.
Qed.

Lemma unpackFixed_stores (f : list Z) (count : nat) :
  forall (k : Z) (d : list Z) (stores : list (Z * Z)),
    unpackFixed count f k d stores
    = (applyStores d (fixedStores f k (Z.of_nat count)),
       stores ++ fixedStores f k (Z.of_nat count)).
Proof.
  induction count as [|count IH]; intros k d stores.
  - cbn. by rewrite app_nil_r.
  - cbn [unpackFixed]. rewrite IH, fixedStores_cons. cbn [applyStores].
    by rewrite <- app_assoc.
Qed.

Lemma rcChannel_range (f : list Z) (k : Z) : 0 <= rcChannel f k < 2048.
Proof.
  unfold rcChannel. change 0x07FF with (Z.ones 11). rewrite Z.land_ones by lia.
  apply Z.mod_pos_bound. lia.
Qed.

Lemma elem_of_fixedStores (f : list Z) (k count i v : Z) :
  (i, v) ∈ fixedStores f k count -> k <= i < k + count /\ v = rcChannel f i.
Proof.
  unfold fixedStores. intros Hin. apply list_elem_of_fmap in Hin.
  destruct Hin as (m & Heq & Hm). injection Heq as -> ->.
  apply elem_of_seqZ in Hm. split; [lia|done].
Qed.

Lemma fixedStores_lookup (f : list Z) (count : nat) :
  forall (k : Z) (d : list Z) (m : Z),
    0 <= k -> k <= m < k + Z.of_nat count ->
    (Z.to_nat m < length d)%nat ->
    applyStores d (fixedStores f k (Z.of_nat count)) !! Z.to_nat m
    = Some (rcChannel f m).
Proof.
  induction count as [|count IH]; intros k d m Hk Hm Hlt; [lia|].
  rewrite fixedStores_cons. cbn [applyStores].
  destruct (Z.eq_dec m k) as [->|Hne].
  - rewrite applyStores_lookup_other.
    + apply storeChannel_lookup_eq; [lia|done].
    + intros j v Hin. apply elem_of_fixedStores in Hin. lia.
  - apply IH; [lia|lia|]. by rewrite length_storeChannel.
Qed.

Lemma length_applyStores (stores : list (Z * Z)) :
  forall d, length (applyStores d stores) = length d.
Proof.
  induction stores as [|[i v] stores IH]; intros d; [done|].
  cbn [applyStores]. by rewrite IH, length_storeChannel.
Qed.

(** After the sixteen stores the array holds the sixteen fields. *)
Lemma applyStores_fixed (f : list Z) (d : list Z) :
  length d = 16%nat ->
  applyStores d (fixedStores f 0 16) = rcChannel f <$> seqZ 0 16.
Proof.
  intros Hd. apply list_eq. intros i.
  destruct (decide (i < 16)%nat) as [Hi|Hi].
  - pose proof (fixedStores_lookup f 16 0 d (Z.of_nat i)
                  ltac:(lia) ltac:(lia) ltac:(lia)) as H.
    change (Z.of_nat 16) with 16 in H. rewrite Nat2Z.id in H. rewrite H.
    rewrite list_lookup_fmap, (lookup_seqZ_lt 0 16 i) by lia.
    cbn. do 2 f_equal.
  - rewrite !lookup_ge_None_2; [done| |].
    + rewrite length_fmap, length_seqZ. lia.
    + rewrite length_applyStores. lia.
Qed.

(** X10: the poll of a latched fixed-format frame returns "complete" after
    exactly sixteen stores, channel [k] := bit-field [k] for [k] = 0..15, every
    index inside the channel array and every value below 2048; the channel
    array afterwards is made of the frame's fields alone, whatever it held. *)
Theorem crsfFrameStatus_fixed (s : crsfState)
    (Hdone : crsfFrameDone s = true)
    (Hty : frameType (crsfChannelDataFrame s) = CRSF_FRAMETYPE_RC_CHANNELS_PACKED)
    (Hch : length (crsfChannelData s) = 16%nat) :
  let f := crsfChannelDataFrame s in
  exists r,
    crsfFrameStatus s = Some r
    /\ pollStatus r = RX_FRAME_COMPLETE
    /\ pollStores r = (fun k => (k, rcChannel f k)) <$> seqZ 0 16
    /\ crsfChannelData (pollState r) = rcChannel f <$> seqZ 0 16
    /\ (forall i v, (i, v) ∈ pollStores r -> 0 <= i < CRSF_MAX_CHANNEL /\ 0 <= v < 2048).
Proof.
  intros f. unfold crsfFrameStatus. rewrite Hdone, Hty.
  change (CRSF_FRAMETYPE_RC_CHANNELS_PACKED =? CRSF_FRAMETYPE_RC_CHANNELS_PACKED)
    with true. cbv iota.
  rewrite unpackFixed_stores. fold f.
  change (Z.of_nat (Z.to_nat CRSF_MAX_CHANNEL)) with 16.
  eexists. split; [reflexivity|]. cbn [pollStatus pollStores pollState withChannels
    crsfChannelData app].
  split; [done|]. split; [done|]. split; [by apply applyStores_fixed|].
  intros i v Hin. apply elem_of_fixedStores in Hin. destruct Hin as [Hi ->].
  unfold CRSF_MAX_CHANNEL. split; [lia|apply rcChannel_range].
Qed.

Lemma crsfFrameStatus_fixed_witness :
  exists r,
    crsfFrameStatus fixedExampleState = Some r
    /\ crsfChannelData (pollState r)
       = rcChannel (crsfChannelDataFrame fixedExampleState) <$> seqZ 0 16.
Proof.
  destruct (crsfFrameStatus_fixed fixedExampleState eq_refl eq_refl eq_refl)
    as (r & Hr & _ & _ & Hd & _).
  exists r. split; [exact Hr|exact Hd].
Defined.

(** Field [k] of packed eleven-bit values. *)
Lemma packBits_field (vals : list Z) :
  Forall is11Bit vals ->
  forall (k : nat) (v : Z),
    vals !! k = Some v ->
    Z.land (Z.shiftr (packBits vals) (11 * Z.of_nat k)) 0x07FF = v.
Proof.
  intros Hvals. change 0x07FF with (Z.ones 11).
  induction Hvals as [|x vals Hx Hvals IH]; intros k v Hk; [done|].
  rewrite Z.land_ones, Z.shiftr_div_pow2 by lia.
  destruct k as [|k].
  - injection Hk as <-. cbn [packBits]. change (2 ^ (11 * Z.of_nat 0)) with 1.
    rewrite Z.div_1_r. unfold is11Bit in Hx. change (2 ^ 11) with 2048.
    Z.div_mod_to_equations. lia.
  - cbn [lookup list_lookup] in Hk. specialize (IH k v Hk).
    rewrite Z.land_ones, Z.shiftr_div_pow2 in IH by lia.
    cbn [packBits]. unfold is11Bit in Hx.
    replace (11 * Z.of_nat (S k)) with (11 + 11 * Z.of_nat k) by lia.
    rewrite Z.pow_add_r by lia. rewrite <- Z.div_div by lia.
    change (2 ^ 11) with 2048 in *.
    replace ((x + 2048 * packBits vals) / 2048) with (packBits vals).
    + exact IH.
    + Z.div_mod_to_equations. lia.
Qed.

(** X11: fixed-format decoding inverts the packing: when the 22 payload
    bytes, read little-endian, are sixteen eleven-bit values packed from bit 0
    upwards, the poll leaves exactly these sixteen values in the channel
    array. *)
Theorem crsfFrameStatus_fixed_unpacks (s : crsfState) (vals : list Z)
    (Hdone : crsfFrameDone s = true)
    (Hty : frameType (crsfChannelDataFrame s) = CRSF_FRAMETYPE_RC_CHANNELS_PACKED)
    (Hch : length (crsfChannelData s) = 16%nat)
    (Hvals : Forall is11Bit vals)
    (Hlen : length vals = 16%nat)
    (Hpacked : payloadBits (crsfChannelDataFrame s) 22 0 = packBits vals) :
  exists r,
    crsfFrameStatus s = Some r
    /\ pollStatus r = RX_FRAME_COMPLETE
    /\ crsfChannelData (pollState r) = vals.
Proof.
  unfold crsfFrameStatus. rewrite Hdone, Hty.
  change (CRSF_FRAMETYPE_RC_CHANNELS_PACKED =? CRSF_FRAMETYPE_RC_CHANNELS_PACKED)
    with true. cbv iota.
  rewrite unpackFixed_stores.
  change (Z.of_nat (Z.to_nat CRSF_MAX_CHANNEL)) with 16.
  eexists. split; [reflexivity|]. cbn [pollStatus pollState withChannels crsfChannelData].
  split; [done|]. rewrite applyStores_fixed by done.
  apply list_eq. intros i. rewrite list_lookup_fmap.
  destruct (decide (i < 16)%nat) as [Hi|Hi].
  - rewrite (lookup_seqZ_lt 0 16 i) by lia. cbn.
    destruct (lookup_lt_is_Some_2 vals i ltac:(lia)) as [v Hv]. rewrite Hv. f_equal.
    unfold rcChannel. rewrite Hpacked. replace (0 + Z.of_nat i) with (Z.of_nat i) by lia.
    by apply packBits_field.
  - rewrite (lookup_seqZ_ge 0 16 i) by lia. cbn.
    symmetry. apply lookup_ge_None_2. lia.
Qed.

Lemma crsfFrameStatus_fixed_unpacks_witness :
  exists r,
    crsfFrameStatus fixedExampleState = Some r
    /\ pollStatus r = RX_FRAME_COMPLETE
    /\ crsfChannelData (pollState r) = fixedExampleValues.
Proof.
  apply (crsfFrameStatus_fixed_unpacks fixedExampleState fixedExampleValues);
    try reflexivity.
  forall_closed.
Defined.

(** ** Subset-format unpacking against the packing *)

(** Field [k] of packed eleven-bit values, whatever lies above them. *)
Lemma packBits_field_above (vals : list Z) :
  Forall is11Bit vals ->
  forall (k : nat) (v hi : Z),
    vals !! k = Some v ->
    (((packBits vals + 2 ^ (11 * Z.of_nat (length vals)) * hi) / 2 ^ (11 * Z.of_nat k))
       mod 2 ^ 11) = v.
Proof.
  induction 1 as [|x vals Hx Hvals IH]; intros k v hi Hk; [done|].
  unfold is11Bit in Hx. cbn [packBits length].
  replace (11 * Z.of_nat (S (length vals))) with (11 + 11 * Z.of_nat (length vals)) by lia.
  rewrite Z.pow_add_r by lia. change (2 ^ 11) with 2048.
  set (rest := packBits vals + 2 ^ (11 * Z.of_nat (length vals)) * hi).
  replace (x + 2048 * packBits vals + 2048 * 2 ^ (11 * Z.of_nat (length vals)) * hi)
    with (x + 2048 * rest) by (subst rest; ring).
  destruct k as [|k].
  - injection Hk as <-. change (2 ^ (11 * Z.of_nat 0)) with 1. rewrite Z.div_1_r.
    Z.div_mod_to_equations. lia.
  - cbn [lookup list_lookup] in Hk. specialize (IH k v hi Hk). fold rest in IH.
    replace (11 * Z.of_nat (S k)) with (11 + 11 * Z.of_nat k) by lia.
    rewrite Z.pow_add_r by lia. rewrite <- Z.div_div by lia.
    change (2 ^ 11) with 2048 in *.
    replace ((x + 2048 * rest) / 2048) with rest by (Z.div_mod_to_equations; lia).
    exact IH.
Qed.

(** The poll of a latched subset frame, as one equation. *)
Lemma crsfFrameStatus_subset_run (s : crsfState) :
  crsfFrameDone s = true ->
  frameType (crsfChannelDataFrame s) = CRSF_FRAMETYPE_SUBSET_RC_CHANNELS_PACKED ->
  Forall isByte (crsfChannelDataFrame s) ->
  2 <= frameLength (crsfChannelDataFrame s) <= 62 ->
  let f := crsfChannelDataFrame s in
  let len := Z.to_nat (frameLength f - 2) in
  let num := Z.quot ((frameLength f - 2) * 8 - 5) 11 in
  0 <= num <= 43
  /\ (0 < num -> 11 * num + 5 <= 8 * (frameLength f - 2))
  /\ crsfFrameStatus s
     = Some {| pollStatus := RX_FRAME_COMPLETE;
               pollState := withChannels s
                              (applyStores (crsfChannelData s) (subsetStores f len 0 num));
               pollStores := subsetStores f len 0 num |}.
Proof.
  intros Hdone Hty Hbytes Hlen f len num.
  assert (Hnum : 0 <= num <= 43 /\ (0 < num -> 11 * num + 5 <= 8 * (frameLength f - 2))).
  { subst num f. Z.quot_rem_to_equations. lia. }
  split; [apply Hnum|]. split; [apply Hnum|].
  assert (Hnc : numOfChannels f = num).
  { unfold numOfChannels, CRSF_FRAME_LENGTH_TYPE_CRC, u8,
      CRSF_SUBSET_RC_CHANNELS_PACKED_STARTING_CHANNEL_RESOLUTION,
      CRSF_SUBSET_RC_CHANNELS_PACKED_RESOLUTION.
    fold num. apply Z.mod_small. lia. }
  unfold crsfFrameStatus. rewrite Hdone, Hty. fold f.
  change (CRSF_FRAMETYPE_SUBSET_RC_CHANNELS_PACKED =? CRSF_FRAMETYPE_RC_CHANNELS_PACKED)
    with false. cbv iota. rewrite Hnc.
  assert (Hat : subsetReaderAt f 0 0 subsetReaderInit) by (split; [done|by left]).
  assert (Hfits : (0 < Z.to_nat num)%nat ->
                  11 * (0 + Z.of_nat (Z.to_nat num)) + 5 <= 8 * Z.of_nat len)
    by (subst len; lia).
  rewrite (subsetUnpack_stores f Hbytes len ltac:(subst len f; lia)
             (Z.to_nat num) 0 subsetReaderInit 0%nat _ _
             ltac:(lia) Hat ltac:(simpl; lia) ltac:(lia) Hfits).
  rewrite Z2Nat.id by lia. reflexivity.
Qed.

(** X12: the poll of a latched subset frame makes [numOfChannels]
    stores, and all of them fall inside the 16-element channel array exactly
    when there is no value or [startChannel + numOfChannels <= 16]. *)
Theorem crsfFrameStatus_subset_in_bounds (s : crsfState)
    (Hdone : crsfFrameDone s = true)
    (Hty : frameType (crsfChannelDataFrame s) = CRSF_FRAMETYPE_SUBSET_RC_CHANNELS_PACKED)
    (Hbytes : Forall isByte (crsfChannelDataFrame s))
    (Hlen : 2 <= frameLength (crsfChannelDataFrame s) <= 62) :
  let f := crsfChannelDataFrame s in
  let num := Z.quot ((frameLength f - 2) * 8 - 5) 11 in
  let start := Z.land (payload f 0) 0x1F in
  exists r,
    crsfFrameStatus s = Some r
    /\ Z.of_nat (length (pollStores r)) = num
    /\ ((forall i v, (i, v) ∈ pollStores r -> 0 <= i < CRSF_MAX_CHANNEL)
        <-> num = 0 \/ start + num <= CRSF_MAX_CHANNEL).
Proof.
  intros f num start.
  destruct (crsfFrameStatus_subset_run s Hdone Hty Hbytes Hlen) as (Hnum & _ & Hrun).
  change (0 <= num <= 43) in Hnum.
  change (crsfFrameStatus s
          = Some {| pollStatus := RX_FRAME_COMPLETE;
                    pollState := withChannels s
                      (applyStores (crsfChannelData s)
                         (subsetStores f (Z.to_nat (frameLength f - 2)) 0 num));
                    pollStores := subsetStores f (Z.to_nat (frameLength f - 2)) 0 num |})
    in Hrun.
  pose proof (startChannel_range f Hbytes) as Hstart. fold start in Hstart.
  eexists. split; [exact Hrun|]. cbn [pollStores]. unfold CRSF_MAX_CHANNEL.
  split.
  { unfold subsetStores. rewrite length_fmap, length_seqZ. lia. }
  split.
  - intros Hall. destruct (Z.eq_dec num 0) as [|Hne]; [by left|right].
    destruct (Hall (start + (num - 1)) (subsetValue f (Z.to_nat (frameLength f - 2)) (num - 1))).
    + unfold subsetStores. apply list_elem_of_fmap. exists (num - 1).
      split; [done|]. apply elem_of_seqZ. lia.
    + lia.
  - intros Hfit i v Hin. apply elem_of_subsetStores in Hin.
    destruct Hin as (m & Hm & -> & _). fold start. lia.
Qed.

Lemma crsfFrameStatus_subset_in_bounds_witness :
  exists r,
    crsfFrameStatus subsetExampleState = Some r
    /\ Z.of_nat (length (pollStores r)) = 2
    /\ ((forall i v, (i, v) ∈ pollStores r -> 0 <= i < CRSF_MAX_CHANNEL)
        <-> 2 = 0 \/ 4 + 2 <= CRSF_MAX_CHANNEL).
Proof.
  apply (crsfFrameStatus_subset_in_bounds subsetExampleState);
    [reflexivity | reflexivity | forall_closed | vm_compute; split; congruence].
Defined.

(** X13: subset decoding inverts the packing: when the payload, read
    little-endian, is a starting channel in its low five bits followed by
    eleven-bit values (as many as the frame length gives, with any padding
    above them), the poll stores value [j] to channel [start + j], in order,
    and nothing else. *)
Theorem crsfFrameStatus_subset_unpacks (s : crsfState) (start : Z) (vals : list Z)
    (hi : Z)
    (Hdone : crsfFrameDone s = true)
    (Hty : frameType (crsfChannelDataFrame s) = CRSF_FRAMETYPE_SUBSET_RC_CHANNELS_PACKED)
    (Hbytes : Forall isByte (crsfChannelDataFrame s))
    (Hlen : 2 <= frameLength (crsfChannelDataFrame s) <= 62)
    (Hstart : 0 <= start < 32)
    (Hvals : Forall is11Bit vals)
    (Hnum : Z.of_nat (length vals)
            = Z.quot ((frameLength (crsfChannelDataFrame s) - 2) * 8 - 5) 11)
    (Hpacked : payloadBits (crsfChannelDataFrame s)
                 (Z.to_nat (frameLength (crsfChannelDataFrame s) - 2)) 0
               = start + 32 * (packBits vals + 2 ^ (11 * Z.of_nat (length vals)) * hi)) :
  exists r,
    crsfFrameStatus s = Some r
    /\ pollStatus r = RX_FRAME_COMPLETE
    /\ pollStores r = imap (fun j v => (start + Z.of_nat j, v)) vals
    /\ crsfChannelData (pollState r) = applyStores (crsfChannelData s) (pollStores r).
Proof.
  destruct (crsfFrameStatus_subset_run s Hdone Hty Hbytes Hlen) as (Hn & Hfit & Hrun).
  set (f := crsfChannelDataFrame s) in *.
  set (len := Z.to_nat (frameLength f - 2)) in *.
  rewrite <- Hnum in Hrun, Hn, Hfit.
  eexists. split; [exact Hrun|]. cbn [pollStatus pollStores pollState withChannels
    crsfChannelData].
  split; [done|]. split; [|done].
  apply list_eq. intros i. unfold subsetStores.
  rewrite list_lookup_fmap, list_lookup_imap.
  destruct (vals !! i) as [v|] eqn:Hv.
  - pose proof (lookup_lt_Some _ _ _ Hv) as Hi.
    rewrite lookup_seqZ_lt by lia. cbn. f_equal.
    assert (Hlen1 : exists n, len = S n) by (exists (len - 1)%nat; subst len; lia).
    destruct Hlen1 as [n Hn1].
    assert (Hs : Z.land (payload f 0) 0x1F = start).
    { change 0x1F with (Z.ones 5). rewrite Z.land_ones by lia.
      rewrite Hn1 in Hpacked. cbn [payloadBits] in Hpacked.
      pose proof (byteAt_byte f (3 + 0) Hbytes) as Hb. fold (payload f 0) in Hb.
      change (2 ^ 5) with 32. Z.div_mod_to_equations. lia. }
    rewrite Hs. replace (0 + Z.of_nat i) with (Z.of_nat i) by lia. f_equal.
    unfold subsetValue. rewrite Hpacked.
    change 0x07FF with (Z.ones 11). rewrite Z.land_ones, Z.shiftr_div_pow2 by lia.
    rewrite Z.pow_add_r by lia. rewrite <- Z.div_div by lia. change (2 ^ 5) with 32.
    set (m := packBits vals + _).
    replace ((start + 32 * m) / 32) with m by (Z.div_mod_to_equations; lia).
    subst m. by apply packBits_field_above.
  - apply lookup_ge_None_1 in Hv. rewrite lookup_seqZ_ge by lia. done.
Qed.

Lemma crsfFrameStatus_subset_unpacks_witness :
  exists r,
    crsfFrameStatus subsetExampleState = Some r
    /\ pollStatus r = RX_FRAME_COMPLETE
    /\ pollStores r = [(4, 100); (5, 2000)]
    /\ crsfChannelData (pollState r)
       = applyStores (crsfChannelData subsetExampleState) (pollStores r).
Proof.
  apply (crsfFrameStatus_subset_unpacks subsetExampleState 4 [100; 2000] 0);
    [reflexivity | reflexivity | forall_closed | vm_compute; split; congruence
    | lia | forall_closed | reflexivity | reflexivity].
Defined.

(** ** Telemetry output slot *)

Lemma crsfRxWriteTelemetryData_length (data : list Z) (len : Z) (t : telemetrySlot) :
  0 <= len <= Z.of_nat (length data) ->
  length (telemetryBuf t) = 64%nat ->
  length (telemetryBuf (crsfRxWriteTelemetryData data len t)) = 64%nat.
Proof.
  intros Hlen Hbuf. unfold crsfRxWriteTelemetryData, CRSF_FRAME_SIZE_MAX. simpl.
  rewrite length_app, length_take, length_drop. lia.
Qed.

Lemma take_take_app (n : nat) (l k : list Z) :
  (n <= length l)%nat -> take n (take n l ++ k) = take n l.
Proof.
  intros Hn. rewrite take_app_le by (rewrite length_take; lia).
  rewrite take_take. f_equal. lia.
Qed.

(** X14: a write of [len] bytes into the telemetry slot stores at most 64
    of them and keeps the slot 64 bytes long; the next send transmits exactly
    the first [min len 64] bytes written (nothing after a write of length 0)
    and empties the slot, so a second send transmits nothing. *)
Theorem telemetry_write_then_send (data : list Z) (len : Z) (t : telemetrySlot)
    (Hlen : 0 <= len <= Z.of_nat (length data))
    (Hbuf : length (telemetryBuf t) = 64%nat) :
  let t1 := crsfRxWriteTelemetryData data len t in
  let sent := (crsfRxSendTelemetryData t1).1 in
  let t2 := (crsfRxSendTelemetryData t1).2 in
  length (telemetryBuf t1) = 64%nat
  /\ 0 <= telemetryBufLen t1 <= 64
  /\ (0 < len -> sent = Some (take (Z.to_nat (Z.min len 64)) data))
  /\ (len = 0 -> sent = None)
  /\ telemetryBufLen t2 = 0
  /\ crsfRxSendTelemetryData t2 = (None, t2).
Proof.
  intros t1 sent t2.
  assert (Hl : telemetryBufLen t1 = Z.min len 64).
  { subst t1. unfold crsfRxWriteTelemetryData, CRSF_FRAME_SIZE_MAX, u8. simpl.
    apply Z.mod_small. lia. }
  split; [by apply crsfRxWriteTelemetryData_length|].
  split; [lia|].
  assert (Hsend : crsfRxSendTelemetryData t1
                  = if 0 <? len
                    then (Some (take (Z.to_nat (Z.min len 64)) data),
                          {| telemetryBuf := telemetryBuf t1; telemetryBufLen := 0 |})
                    else (None, t1)).
  { unfold crsfRxSendTelemetryData. rewrite Hl.
    destruct (Z.gtb_spec (Z.min len 64) 0); destruct (Z.ltb_spec 0 len); try lia;
      [|done].
    f_equal. f_equal. subst t1. unfold crsfRxWriteTelemetryData, CRSF_FRAME_SIZE_MAX.
    simpl. apply take_take_app. lia. }
  subst sent t2. rewrite Hsend.
  destruct (Z.ltb_spec 0 len); cbn [fst snd telemetryBufLen].
  - split; [done|]. split; [intros; lia|]. split; [done|].
    reflexivity.
  - split; [intros; lia|]. split; [done|]. rewrite Hl. split; [lia|].
    unfold crsfRxSendTelemetryData. rewrite Hl.
    destruct (Z.gtb_spec (Z.min len 64) 0); [lia|done].
Qed.

Lemma telemetry_write_then_send_witness :
  (crsfRxSendTelemetryData
     (crsfRxWriteTelemetryData [1; 2; 3; 4] 3 telemetrySlotInit)).1
  = Some [1; 2; 3].
Proof.
  pose proof (telemetry_write_then_send [1; 2; 3; 4] 3 telemetrySlotInit
                ltac:(simpl; lia) eq_refl) as H.
  cbv zeta in H. destruct H as (_ & _ & H & _). apply H. lia.
Defined.

(** X15: of two writes into the telemetry slot before a send, only the
    second is transmitted. *)
Theorem telemetry_last_write_wins (d1 d2 : list Z) (l1 l2 : Z) (t : telemetrySlot)
    (H1 : 0 <= l1 <= Z.of_nat (length d1))
    (H2 : 0 < l2 <= Z.of_nat (length d2))
    (Hbuf : length (telemetryBuf t) = 64%nat) :
  (crsfRxSendTelemetryData
     (crsfRxWriteTelemetryData d2 l2 (crsfRxWriteTelemetryData d1 l1 t))).1
  = Some (take (Z.to_nat (Z.min l2 64)) d2).
Proof.
  unfold crsfRxSendTelemetryData.
  assert (Hl : telemetryBufLen
                 (crsfRxWriteTelemetryData d2 l2 (crsfRxWriteTelemetryData d1 l1 t))
               = Z.min l2 64).
  { unfold crsfRxWriteTelemetryData at 1. unfold CRSF_FRAME_SIZE_MAX, u8. simpl.
    apply Z.mod_small. lia. }
  rewrite Hl. destruct (Z.gtb_spec (Z.min l2 64) 0); [|lia]. simpl.
  f_equal. unfold CRSF_FRAME_SIZE_MAX. apply take_take_app. lia.
Qed.

Lemma telemetry_last_write_wins_witness :
  (crsfRxSendTelemetryData
     (crsfRxWriteTelemetryData [7; 8] 2
        (crsfRxWriteTelemetryData [1; 2; 3; 4] 4 telemetrySlotInit))).1
  = Some [7; 8].
Proof.
  apply (telemetry_last_write_wins [1; 2; 3; 4] [7; 8] 4 2 telemetrySlotInit);
    [simpl; lia | simpl; lia | reflexivity].
Defined.

(** ** Raw read *)

(** X16: on eleven-bit channel values the raw read is monotone and stays
    within 880..2159; eight steps of the channel value are five microseconds
    of pulse width. *)
Theorem crsfReadRawRC_monotone (s : crsfState) (c1 c2 v1 v2 : Z)
    (Hc1 : 0 <= c1) (Hc2 : 0 <= c2)
    (Hl1 : crsfChannelData s !! Z.to_nat c1 = Some v1)
    (Hl2 : crsfChannelData s !! Z.to_nat c2 = Some v2)
    (Hv1 : 0 <= v1) (Hv12 : v1 <= v2) (Hv2 : v2 < 2048) :
  exists p1 p2,
    crsfReadRawRC s c1 = Some p1 /\ crsfReadRawRC s c2 = Some p2
    /\ 880 <= p1 /\ p1 <= p2 /\ p2 <= 2159
    /\ (v1 + 8 <= v2 -> p1 + 5 <= p2).
Proof.
  exists (rawToPulse v1), (rawToPulse v2).
  unfold crsfReadRawRC. destruct (Z.ltb_spec c1 0); [lia|].
  destruct (Z.ltb_spec c2 0); [lia|]. rewrite Hl1, Hl2.
  split; [done|]. split; [done|].
  rewrite !rawToPulse_floor by lia.
  Z.div_mod_to_equations. lia.
Qed.

Lemma crsfReadRawRC_monotone_witness :
  exists p1 p2,
    crsfReadRawRC (fixedExamplePolled) 1 = Some p1
    /\ crsfReadRawRC (fixedExamplePolled) 2 = Some p2
    /\ 880 <= p1 /\ p1 <= p2 /\ p2 <= 2159
    /\ (172 + 8 <= 1811 -> p1 + 5 <= p2).
Proof.
  apply (crsfReadRawRC_monotone (fixedExamplePolled) 1 2 172 1811);
    try reflexivity; lia.
Defined.

(** X17: after [crsfRxInit] every channel reads back the configured
    [midrc] (for 880 <= midrc < 2160) or one microsecond less, and [midrc]
    itself when it is a multiple of 5. *)
Theorem crsfRxInit_reads_midrc (midrc chan : Z)
    (Hmid : 880 <= midrc < 2160) (Hchan : 0 <= chan < CRSF_MAX_CHANNEL) :
  exists p, crsfReadRawRC (crsfRxInit midrc) chan = Some p
            /\ midrc - 1 <= p <= midrc
            /\ (midrc mod 5 = 0 -> p = midrc).
Proof.
  unfold CRSF_MAX_CHANNEL in Hchan.
  set (v := u32 (Z.quot (16 * midrc) 10 - 1408)).
  assert (Hv : 0 <= v < 2048 /\ v = 16 * midrc / 10 - 1408).
  { subst v. unfold u32. rewrite Z.quot_div_nonneg by lia.
    rewrite Z.mod_small; Z.div_mod_to_equations; lia. }
  exists (rawToPulse v). split.
  - unfold crsfReadRawRC. destruct (Z.ltb_spec chan 0); [lia|].
    unfold crsfRxInit. cbn [crsfChannelData]. fold v.
    rewrite lookup_replicate_2; [done|]. unfold CRSF_MAX_CHANNEL. lia.
  - rewrite rawToPulse_floor by lia. destruct Hv as [_ ->].
    Z.div_mod_to_equations. lia.
Qed.

Lemma crsfRxInit_reads_midrc_witness :
  exists p, crsfReadRawRC (crsfRxInit 1500) 7 = Some p
            /\ 1500 - 1 <= p <= 1500
            /\ (1500 mod 5 = 0 -> p = 1500).
Proof. apply (crsfRxInit_reads_midrc 1500 7); vm_compute; split; congruence. Defined.

